(** * HTTP client types file generation (http/codegen/client_types.go)

    A shallow embedding of [ClientTypeFiles] and [clientType], the planner
    that lays out the sections of the generated [client/types.go] file of
    every HTTP service, together with the structure of the templates the
    Go file defines. *)

From stdpp Require Import base option list sorting strings gmap.

Open Scope string_scope.
Open Scope list_scope.
Open Scope nat_scope.

(** ** Data consumed by the planner

    The Go declarations of these structures live in sibling files of the
    [codegen] packages. The records below carry the fields that
    [clientType] and the templates of client_types.go read. A pointer that
    the code tests against nil is an [option]; a pointer that the code
    dereferences without a test ([adata], [herr.Response], [rdata.Service])
    is the value it points to. *)

(** An import of the generated file ([codegen.ImportSpec]). *)
Record ImportSpec := {
  ImportPath : string;
  ImportName : string
}.

(** One argument of a constructor, as read by [clientBodyInitT] and
    [clientTypeInitT]. *)
Record InitArgData := {
  ArgName : string;
  TypeRef : string;
  FieldName : string;
  Pointer : bool
}.

(** The data of a constructor ("input: InitData" of both init templates). *)
Record InitData := {
  InitName : string;
  Description : string;
  ClientArgs : list InitArgData;
  ReturnTypeRef : string;
  ReturnTypeName : string;
  ReturnTypeAttribute : string;
  ReturnIsStruct : bool;
  ClientCode : string
}.

(** A body type: its Go name, the text of its definition, its optional
    constructor and the text of its validation. [Init] is a pointer in Go,
    [None] stands for nil. *)
Record TypeData := {
  VarName : string;
  Def : string;
  Init : option InitData;
  ValidateDef : string
}.

(** One view of an expanded type, as read inside the [range .Views] of
    [expandedTypeConvertT]. *)
Record ViewData := {
  ViewRef : string;
  ToResult : string;
  View : string;
  ToResultCode : string
}.

(** An expanded type ("input: ExpandedTypeData" of [expandedTypeConvertT]
    and [validateExpandedTypeT]). *)
Record ExpandedTypeData := {
  ExpName : string;
  ExpVarName : string;
  ExpRef : string;
  ExpDef : string;
  ResultName : string;
  ResultRef : string;
  Validate : string;
  Views : list ViewData
}.

(** A shared transform helper function. *)
Record TransformFunctionData := {
  HelperName : string;
  HelperCode : string
}.

Record ResponseData := {
  ClientBody : option TypeData;
  ResultInit : option InitData
}.

Record ErrorData := {
  Response : ResponseData
}.

Record ResultData := {
  Responses : list ResponseData
}.

Record RequestData := {
  RequestClientBody : option TypeData
}.

Record PayloadData := {
  Request : RequestData
}.

Record EndpointData := {
  Payload : PayloadData;
  Result : ResultData;
  Errors : list ErrorData
}.

(** The transport independent service data ([rdata.Service]). *)
Record ServiceMethodsData := {
  PkgName : string;
  Helpers : list TransformFunctionData;
  ServiceExpandedTypes : list ExpandedTypeData
}.

(** The HTTP service data returned by [HTTPServices.Get]. *)
Record ServiceData := {
  Service : ServiceMethodsData;
  Endpoints : list EndpointData;
  ClientBodyAttributeTypes : list TypeData;
  ExpandedTypes : list ExpandedTypeData
}.

(** The design expressions ([httpdesign]): only names are read. *)
Record EndpointExpr := {
  EndpointName : string
}.

Record ServiceExpr := {
  ServiceName : string;
  HTTPEndpoints : list EndpointExpr
}.

Record RootExpr := {
  HTTPServices : list ServiceExpr
}.

(** ** Sections and files *)

(** The templates a section can be rendered with. [headerT] stands for the
    template of the section built by [codegen.Header]. *)
Inductive Template :=
  | headerT
  | typeDeclT
  | clientBodyInitT
  | clientTypeInitT
  | expandedTypeConvertT
  | transformHelperT
  | validateT
  | validateExpandedTypeT.

(** The [Data interface{}] field of a section: one constructor per dynamic
    type that [clientType] stores there. *)
Inductive SectionData :=
  | HeaderData (title pkg : string) (imports : list ImportSpec)
  | BodyTypeData (d : TypeData)
  | InitSectionData (i : InitData)
  | ExpandedData (t : ExpandedTypeData)
  | HelperData (h : TransformFunctionData).

Record SectionTemplate := {
  Name : string;
  Source : Template;
  Data : SectionData
}.

Record File := {
  Path : string;
  SectionTemplates : list SectionTemplate
}.

(** Modelled from the spec: [codegen.Header] is defined outside
    client_types.go; it builds the header/import section of phase 1 from a
    title, a package name and the imports. *)
Definition Header (title pkg : string) (imports : list ImportSpec)
  : SectionTemplate :=
  {| Name := "source-header"; Source := headerT;
     Data := HeaderData title pkg imports |}.

(** [s] is not the empty string. *)
Definition nonempty (s : string) : bool :=
  match s with EmptyString => false | String _ _ => true end.

(** What [clientType] reads from the rest of the generator: the output
    directory [codegen.Gendir], the functions [codegen.SnakeCase] and
    [filepath.Join], the registry lookup [HTTPServices.Get] and the method
    [Endpoint] of the service data. None of them is defined in
    client_types.go, so the planner is parameterised by them. *)
Record Env := {
  Gendir : string;
  SnakeCase : string → string;
  filepath_Join : list string → string;
  HTTPServices_Get : string → ServiceData;
  Endpoint : ServiceData → string → EndpointData
}.

(** ** The planner *)

(** The three local variables that the loops of [clientType] append to. *)
Record Plan := {
  sections : list SectionTemplate;
  initData : list InitData;
  validatedTypes : list TypeData
}.

Definition sectionOf (name : string) (src : Template) (d : SectionData)
  : SectionTemplate :=
  {| Name := name; Source := src; Data := d |}.

Definition appendSection (p : Plan) (s : SectionTemplate) : Plan :=
  {| sections := sections p ++ [s];
     initData := initData p;
     validatedTypes := validatedTypes p |}.

Definition appendInit (p : Plan) (i : InitData) : Plan :=
  {| sections := sections p;
     initData := initData p ++ [i];
     validatedTypes := validatedTypes p |}.

Definition appendValidated (p : Plan) (d : TypeData) : Plan :=
  {| sections := sections p;
     initData := initData p;
     validatedTypes := validatedTypes p ++ [d] |}.

(** [sections = append(sections, l...)] *)
Definition addSections (p : Plan) (l : list SectionTemplate) : Plan :=
  {| sections := sections p ++ l;
     initData := initData p;
     validatedTypes := validatedTypes p |}.

(** [sections = append(sections, ...)] when [data.Def] is not empty. *)
Definition declare (name : string) (data : TypeData) (p : Plan) : Plan :=
  if nonempty (Def data)
  then appendSection p (sectionOf name typeDeclT (BodyTypeData data))
  else p.

(** [if data.Init != nil { initData = append(initData, data.Init) }] *)
Definition collectInit (data : TypeData) (p : Plan) : Plan :=
  match Init data with
  | Some i => appendInit p i
  | None => p
  end.

(** [validatedTypes = append(validatedTypes, data)] when
    [data.ValidateDef] is not empty. *)
Definition collectValidated (data : TypeData) (p : Plan) : Plan :=
  if nonempty (ValidateDef data) then appendValidated p data else p.

(** [if init := resp.ResultInit; init != nil { ... }] *)
Definition resultInit (name : string) (resp : ResponseData) (p : Plan) : Plan :=
  match ResultInit resp with
  | Some i => appendSection p (sectionOf name clientTypeInitT (InitSectionData i))
  | None => p
  end.

Section Planner.

Variable E : Env.

(** [adata.Payload.Request.ClientBody] for [adata := rdata.Endpoint(a.Name())] *)
Definition requestBody (rdata : ServiceData) (a : EndpointExpr)
  : option TypeData :=
  RequestClientBody (Request (Payload (Endpoint E rdata (EndpointName a)))).

(** Body of the loop "request body types". *)
Definition requestBodyStep (rdata : ServiceData) (p : Plan) (a : EndpointExpr)
  : Plan :=
  match requestBody rdata a with
  | Some data =>
      collectValidated data
        (collectInit data (declare "client-request-body" data p))
  | None => p
  end.

(** Body of the inner loop of "response body types". *)
Definition responseBodyStep (p : Plan) (resp : ResponseData) : Plan :=
  match ClientBody resp with
  | Some data => collectValidated data (declare "client-response-body" data p)
  | None => p
  end.

(** Body of the inner loop of "error body types". *)
Definition errorBodyStep (p : Plan) (herr : ErrorData) : Plan :=
  match ClientBody (Response herr) with
  | Some data => collectValidated data (declare "client-error-body" data p)
  | None => p
  end.

(** Body of the loop "body attribute types". *)
Definition bodyAttributeStep (p : Plan) (data : TypeData) : Plan :=
  collectValidated data (declare "client-body-attributes" data p).

(** Body of the loop over [rdata.Endpoints] that emits the result
    constructors: the responses first, then the errors. *)
Definition resultInitStep (p : Plan) (adata : EndpointData) : Plan :=
  let p1 := foldl (λ q resp, resultInit "client-result-init" resp q)
              p (Responses (Result adata)) in
  foldl (λ q herr, resultInit "client-error-result-init" (Response herr) q)
    p1 (Errors adata).

(** The header section of the file of [svc]. *)
Definition fileHeader (genpkg : string) (svc : ServiceExpr) : SectionTemplate :=
  let sd := HTTPServices_Get E (ServiceName svc) in
  Header (ServiceName svc +:+ " HTTP client types") "client"
    [ {| ImportPath := "unicode/utf8"; ImportName := EmptyString |};
      {| ImportPath := genpkg +:+ "/" +:+ SnakeCase E (ServiceName svc);
         ImportName := PkgName (Service sd) |};
      {| ImportPath := "goa.design/goa"; ImportName := "goa" |} ].

(** [clientType]: the file of the client types of one service. The registry
    [seen] is a Go map, passed by reference: the function returns it next to
    the file, in the state it has when the call returns. *)
Definition clientType (genpkg : string) (svc : ServiceExpr) (seen : gset string)
  : File * gset string :=
  let rdata := HTTPServices_Get E (ServiceName svc) in
  let path := filepath_Join E
    [Gendir E; "http"; SnakeCase E (ServiceName svc); "client"; "types.go"] in
  let header := fileHeader genpkg svc in
  let p0 := {| sections := [header]; initData := []; validatedTypes := [] |} in
  (* request body types *)
  let p1 := foldl (requestBodyStep rdata) p0 (HTTPEndpoints svc) in
  (* response body types *)
  let p2 := foldl (λ p a,
              foldl responseBodyStep p
                (Responses (Result (Endpoint E rdata (EndpointName a)))))
            p1 (HTTPEndpoints svc) in
  (* error body types *)
  let p3 := foldl (λ p a,
              foldl errorBodyStep p
                (Errors (Endpoint E rdata (EndpointName a))))
            p2 (HTTPEndpoints svc) in
  (* body attribute types *)
  let p4 := foldl bodyAttributeStep p3 (ClientBodyAttributeTypes rdata) in
  (* expanded types *)
  let p5 := foldl (λ p t,
              appendSection p
                (sectionOf "expanded-type" typeDeclT (ExpandedData t)))
            p4 (ExpandedTypes rdata) in
  (* body constructors *)
  let p6 := foldl (λ p init,
              appendSection p
                (sectionOf "client-body-init" clientBodyInitT
                   (InitSectionData init)))
            p5 (initData p5) in
  let p7 := foldl resultInitStep p6 (Endpoints rdata) in
  let p8 := foldl (λ p t,
              appendSection p
                (sectionOf "expanded-type-convert" expandedTypeConvertT
                   (ExpandedData t)))
            p7 (ExpandedTypes rdata) in
  let p9 := foldl (λ p h,
              appendSection p
                (sectionOf "transform-helper" transformHelperT (HelperData h)))
            p8 (Helpers (Service rdata)) in
  (* validate methods *)
  let p10 := foldl (λ p data,
               appendSection p
                 (sectionOf "client-validate" validateT (BodyTypeData data)))
             p9 (validatedTypes p9) in
  let p11 := foldl (λ p t,
               appendSection p
                 (sectionOf "client-validate-expanded" validateExpandedTypeT
                    (ExpandedData t)))
             p10 (ServiceExpandedTypes (Service rdata)) in
  ({| Path := path; SectionTemplates := sections p11 |}, seen).

(** The state of the loop of [ClientTypeFiles]: the index [i], the slice
    [fw] (a nil pointer is [None]) and the registry [seen]. *)
Record LoopState := {
  loop_i : nat;
  loop_fw : list (option File);
  loop_seen : gset string
}.

(** [fw := make([]*codegen.File, len(root.HTTPServices))] and
    [seen := make(map[string]struct{})]. *)
Definition loopInit (root : RootExpr) : LoopState :=
  {| loop_i := 0;
     loop_fw := replicate (length (HTTPServices root)) None;
     loop_seen := ∅ |}.

(** One iteration of [for i, svc := range root.HTTPServices]; [None] when
    the range is exhausted. *)
Definition loopStep (genpkg : string) (root : RootExpr) (st : LoopState)
  : option LoopState :=
  match HTTPServices root !! loop_i st with
  | Some svc =>
      let '(f, seen') := clientType genpkg svc (loop_seen st) in
      Some {| loop_i := S (loop_i st);
              loop_fw := <[loop_i st := Some f]> (loop_fw st);
              loop_seen := seen' |}
  | None => None
  end.

(** Run the loop for at most [fuel] iterations; the result is the slice
    returned once the range is exhausted. *)
Fixpoint loopRun (fuel : nat) (genpkg : string) (root : RootExpr)
    (st : LoopState) : option (list (option File)) :=
  match loopStep genpkg root st with
  | None => Some (loop_fw st)
  | Some st' =>
      match fuel with
      | 0 => None
      | S n => loopRun n genpkg root st'
      end
  end.


(** [ClientTypeFiles]: the loop body runs once per service. *)
Definition ClientTypeFiles (genpkg : string) (root : RootExpr)
  : list (option File) :=
  default [] (loopRun (length (HTTPServices root)) genpkg root (loopInit root)).

End Planner.

(** ** The layout of a file, phase by phase

    The lists below describe the sections of a file declaratively; the
    theorems relate them to what the loops of [clientType] build. *)

Section Layout.

Variable E : Env.

(** The request bodies of the endpoints of [svc], in endpoint order. *)
Definition requestBodies (svc : ServiceExpr) : list TypeData :=
  omap (requestBody E (HTTPServices_Get E (ServiceName svc))) (HTTPEndpoints svc).

(** The response bodies, per endpoint and per response. *)
Definition responseBodies (svc : ServiceExpr) : list TypeData :=
  let rdata := HTTPServices_Get E (ServiceName svc) in
  HTTPEndpoints svc ≫= λ a,
    omap ClientBody (Responses (Result (Endpoint E rdata (EndpointName a)))).

(** The error bodies, per endpoint and per error. *)
Definition errorBodies (svc : ServiceExpr) : list TypeData :=
  let rdata := HTTPServices_Get E (ServiceName svc) in
  HTTPEndpoints svc ≫= λ a,
    omap (λ herr, ClientBody (Response herr))
      (Errors (Endpoint E rdata (EndpointName a))).

(** Every body descriptor the planner visits, in type-declaration order. *)
Definition bodyTypes (svc : ServiceExpr) : list TypeData :=
  requestBodies svc ++ responseBodies svc ++ errorBodies svc
  ++ ClientBodyAttributeTypes (HTTPServices_Get E (ServiceName svc)).

(** The declaration sections of the bodies of [l] whose definition text is
    not empty. *)
Definition typeDecls (name : string) (l : list TypeData) : list SectionTemplate :=
  (λ d, sectionOf name typeDeclT (BodyTypeData d))
    <$> List.filter (λ d, nonempty (Def d)) l.

Definition expandedDecls (rdata : ServiceData) : list SectionTemplate :=
  (λ t, sectionOf "expanded-type" typeDeclT (ExpandedData t))
    <$> ExpandedTypes rdata.

(** Phase 2: all the type declarations. *)
Definition declarationPhase (svc : ServiceExpr) : list SectionTemplate :=
  typeDecls "client-request-body" (requestBodies svc)
  ++ typeDecls "client-response-body" (responseBodies svc)
  ++ typeDecls "client-error-body" (errorBodies svc)
  ++ typeDecls "client-body-attributes"
       (ClientBodyAttributeTypes (HTTPServices_Get E (ServiceName svc)))
  ++ expandedDecls (HTTPServices_Get E (ServiceName svc)).

(** The body constructors: the constructors of the request bodies. *)
Definition bodyInits (svc : ServiceExpr) : list SectionTemplate :=
  (λ i, sectionOf "client-body-init" clientBodyInitT (InitSectionData i))
    <$> omap Init (requestBodies svc).

(** The result constructors of one endpoint: responses, then errors. *)
Definition endpointResultInits (adata : EndpointData) : list SectionTemplate :=
  ((λ i, sectionOf "client-result-init" clientTypeInitT (InitSectionData i))
     <$> omap ResultInit (Responses (Result adata)))
  ++ ((λ i, sectionOf "client-error-result-init" clientTypeInitT
              (InitSectionData i))
        <$> omap (λ herr, ResultInit (Response herr)) (Errors adata)).

Definition resultInits (rdata : ServiceData) : list SectionTemplate :=
  Endpoints rdata ≫= endpointResultInits.

(** Phase 3: the constructors. *)
Definition constructorPhase (svc : ServiceExpr) : list SectionTemplate :=
  bodyInits svc ++ resultInits (HTTPServices_Get E (ServiceName svc)).

(** Phase 4: one conversion section per expanded type. *)
Definition convertPhase (rdata : ServiceData) : list SectionTemplate :=
  (λ t, sectionOf "expanded-type-convert" expandedTypeConvertT (ExpandedData t))
    <$> ExpandedTypes rdata.

(** Phase 5: the transform helpers. *)
Definition helperPhase (rdata : ServiceData) : list SectionTemplate :=
  (λ h, sectionOf "transform-helper" transformHelperT (HelperData h))
    <$> Helpers (Service rdata).

(** The validators of the flagged bodies, in type-declaration order. *)
Definition bodyValidators (svc : ServiceExpr) : list SectionTemplate :=
  (λ d, sectionOf "client-validate" validateT (BodyTypeData d))
    <$> List.filter (λ d, nonempty (ValidateDef d)) (bodyTypes svc).

(** The validators of the expanded types of the service: one for every
    entry of [rdata.Service.ExpandedTypes]. *)
Definition expandedValidators (rdata : ServiceData) : list SectionTemplate :=
  (λ t, sectionOf "client-validate-expanded" validateExpandedTypeT
          (ExpandedData t))
    <$> ServiceExpandedTypes (Service rdata).

(** Phase 6: the validators. *)
Definition validatorPhase (svc : ServiceExpr) : list SectionTemplate :=
  bodyValidators svc
  ++ expandedValidators (HTTPServices_Get E (ServiceName svc)).

(** The validators of the expanded types in the words of the specification:
    only the expanded types that require validation get one. *)
Definition expandedValidators_spec (rdata : ServiceData) : list SectionTemplate :=
  (λ t, sectionOf "client-validate-expanded" validateExpandedTypeT
          (ExpandedData t))
    <$> List.filter (λ t, nonempty (Validate t))
          (ServiceExpandedTypes (Service rdata)).

Definition validatorPhase_spec (svc : ServiceExpr) : list SectionTemplate :=
  bodyValidators svc
  ++ expandedValidators_spec (HTTPServices_Get E (ServiceName svc)).

End Layout.

(** ** Kinds of sections *)

Definition Template_eqb (a b : Template) : bool :=
  match a, b with
  | headerT, headerT | typeDeclT, typeDeclT
  | clientBodyInitT, clientBodyInitT | clientTypeInitT, clientTypeInitT
  | expandedTypeConvertT, expandedTypeConvertT
  | transformHelperT, transformHelperT | validateT, validateT
  | validateExpandedTypeT, validateExpandedTypeT => true
  | _, _ => false
  end.

(** A type-declaration section is one rendered with [typeDeclT]. *)
Definition isTypeDecl (s : SectionTemplate) : bool :=
  Template_eqb (Source s) typeDeclT.

(** A constructor section. *)
Definition isConstructor (s : SectionTemplate) : bool :=
  Template_eqb (Source s) clientBodyInitT
  || Template_eqb (Source s) clientTypeInitT.

(** A validator section. *)
Definition isValidator (s : SectionTemplate) : bool :=
  Template_eqb (Source s) validateT
  || Template_eqb (Source s) validateExpandedTypeT.

(** The sections that can refer to a declared type: constructors, view
    conversions, transform helpers and validators. *)
Definition isDependent (s : SectionTemplate) : bool :=
  isConstructor s
  || Template_eqb (Source s) expandedTypeConvertT
  || Template_eqb (Source s) transformHelperT
  || isValidator s.

(** The name of the Go type that a type-declaration section declares. *)
Definition declaredName (s : SectionTemplate) : option string :=
  if isTypeDecl s then
    match Data s with
    | BodyTypeData d => Some (VarName d)
    | ExpandedData t => Some (ExpVarName t)
    | _ => None
    end
  else None.

Definition declaredNames (f : File) : list string :=
  omap declaredName (SectionTemplates f).

(** The rank of the phase a section belongs to, read off its name. *)
Definition phaseOf (s : SectionTemplate) : nat :=
  if String.eqb (Name s) "source-header" then 0
  else if String.eqb (Name s) "client-request-body" then 1
  else if String.eqb (Name s) "client-response-body" then 2
  else if String.eqb (Name s) "client-error-body" then 3
  else if String.eqb (Name s) "client-body-attributes" then 4
  else if String.eqb (Name s) "expanded-type" then 5
  else if String.eqb (Name s) "client-body-init" then 6
  else if String.eqb (Name s) "client-result-init" then 7
  else if String.eqb (Name s) "client-error-result-init" then 7
  else if String.eqb (Name s) "expanded-type-convert" then 8
  else if String.eqb (Name s) "transform-helper" then 9
  else if String.eqb (Name s) "client-validate" then 10
  else if String.eqb (Name s) "client-validate-expanded" then 11
  else 12.

(** [blocks [(n1, k1); (n2, k2); ...]] is [n1] times [k1], then [n2] times
    [k2], and so on: the shape of the phase ranks of a file. *)
Fixpoint blocks (l : list (nat * nat)) : list nat :=
  match l with
  | [] => []
  | (n, k) :: r => replicate n k ++ blocks r
  end.

(** ** The structure of [expandedTypeConvertT]

    The template ranges over [.Views] and writes one Go method per view:
    a comment built from [.ToResult], [$.Name], [$.ResultName] and [.View],
    the receiver [.Ref], the method name [.ToResult], the return type
    [$.ResultRef] and the body [.ToResultCode]. *)
Record ConvertFunc := {
  ConvertComment : string * string * string * string;
  Receiver : string;
  FuncName : string;
  ReturnType : string;
  Body : string
}.

Definition renderExpandedTypeConvert (t : ExpandedTypeData) : list ConvertFunc :=
  (λ v, {| ConvertComment := (ToResult v, ExpName t, ResultName t, View v);
           Receiver := ViewRef v;
           FuncName := ToResult v;
           ReturnType := ResultRef t;
           Body := ToResultCode v |}) <$> Views t.

(** The conversion functions of one section, and of a whole file. *)
Definition sectionConvertFuncs (s : SectionTemplate) : list ConvertFunc :=
  match Source s, Data s with
  | expandedTypeConvertT, ExpandedData t => renderExpandedTypeConvert t
  | _, _ => []
  end.

Definition convertFuncs (f : File) : list ConvertFunc :=
  SectionTemplates f ≫= sectionConvertFuncs.

(** ** The pointer policy

    client_types.go states the rules that decide whether a value is held by
    pointer only in the comment of [clientType]; the function that applies
    them is part of the service data analysis. *)

Inductive FieldKind := primitive | aggregate.

Inductive FieldContext :=
  | payloadField
  | bodyField
  | paramField
  | requestHeaderField
  | responseHeaderField
  | resultField.

Inductive Representation := value | optional.

(** Modelled from the spec: the pointer-policy resolver of section 4.1, which
    client_types.go does not define. An aggregate is always [optional];
    for a primitive the context decides. Every pair of a kind and a context
    is matched by a rule, so the resolver never fails. *)
Definition pointerPolicy (required hasDefault : bool) (kind : FieldKind)
    (ctx : FieldContext) : Representation :=
  match kind with
  | aggregate => optional
  | primitive =>
      match ctx with
      | payloadField =>
          if negb required && negb hasDefault then optional else value
      | bodyField => optional
      | paramField | requestHeaderField =>
          if negb required then optional else value
      | resultField =>
          if negb required || hasDefault then optional else value
      | responseHeaderField =>
          if negb required && negb hasDefault then optional else value
      end
  end.

(** ** Sample designs *)

Module Sample.

Definition init (name ret : string) : InitData :=
  {| InitName := name;
     Description := name +:+ " builds a value of type " +:+ ret;
     ClientArgs := [ {| ArgName := "p"; TypeRef := "*T"; FieldName := EmptyString;
                        Pointer := false |} ];
     ReturnTypeRef := "*" +:+ ret;
     ReturnTypeName := ret;
     ReturnTypeAttribute := EmptyString;
     ReturnIsStruct := true;
     ClientCode := "body := &" +:+ ret +:+ "{}" |}.

Definition body (name def validate : string) (i : option InitData) : TypeData :=
  {| VarName := name; Def := def; Init := i; ValidateDef := validate |}.

Definition endpoint (req : option TypeData) (resps : list ResponseData)
    (errs : list ResponseData) : EndpointData :=
  {| Payload := {| Request := {| RequestClientBody := req |} |};
     Result := {| Responses := resps |};
     Errors := (λ r, {| Response := r |}) <$> errs |}.

(** Two endpoints whose request bodies declare the same Go type. *)
Definition itemBody : TypeData :=
  body "ItemRequestBody" "struct { Name *string }" EmptyString None.

Definition dupData : ServiceData :=
  {| Service := {| PkgName := "dup"; Helpers := [];
                   ServiceExpandedTypes := [] |};
     Endpoints := [endpoint (Some itemBody) [] []; endpoint (Some itemBody) [] []];
     ClientBodyAttributeTypes := [];
     ExpandedTypes := [] |}.

Definition dupSvc : ServiceExpr :=
  {| ServiceName := "dup";
     HTTPEndpoints := [ {| EndpointName := "create" |};
                        {| EndpointName := "update" |} ] |}.

(** A service with one endpoint: a request body without a definition text
    but with a constructor and a validation, a response body that carries an
    [Init], an error, a body attribute type, an expanded type with two views
    and a service-level expanded type without validation code. *)
Definition showRequest : TypeData :=
  body "ShowRequestBody" EmptyString "err = goa.MergeErrors(err, nil)"
    (Some (init "NewShowRequestBody" "ShowRequestBody")).

Definition showResponse : TypeData :=
  body "ShowResponseBody" "struct { ID *string }" "if body.ID == nil { }"
    (Some (init "NewShowResponseBody" "ShowResponseBody")).

Definition showError : TypeData :=
  body "ShowNotFoundResponseBody" "struct { Message *string }" EmptyString None.

Definition attrBody : TypeData :=
  body "ItemResponseBody" "struct { Name *string }" "if body.Name == nil { }" None.

Definition showEndpoint : EndpointData :=
  endpoint (Some showRequest)
    [ {| ClientBody := Some showResponse;
         ResultInit := Some (init "NewShowItemOK" "Item") |} ]
    [ {| ClientBody := Some showError;
         ResultInit := Some (init "NewShowNotFound" "NotFound") |} ].

Definition itemExpanded : ExpandedTypeData :=
  {| ExpName := "Item"; ExpVarName := "ItemExpanded"; ExpRef := "*ItemExpanded";
     ExpDef := "struct { ID *string; Name *string }";
     ResultName := "Item"; ResultRef := "*shop.Item";
     Validate := EmptyString;
     Views := [ {| ViewRef := "*ItemExpanded"; ToResult := "ToItemDefault";
                   View := "default"; ToResultCode := "res := &shop.Item{}" |};
                {| ViewRef := "*ItemExpanded"; ToResult := "ToItemTiny";
                   View := "tiny"; ToResultCode := "res := &shop.Item{}" |} ] |}.

Definition shopData : ServiceData :=
  {| Service := {| PkgName := "shop";
                   Helpers := [ {| HelperName := "unmarshalItem";
                                   HelperCode := "res := &Item{}" |} ];
                   ServiceExpandedTypes := [itemExpanded] |};
     Endpoints := [showEndpoint];
     ClientBodyAttributeTypes := [attrBody];
     ExpandedTypes := [itemExpanded] |}.

Definition shopSvc : ServiceExpr :=
  {| ServiceName := "shop"; HTTPEndpoints := [ {| EndpointName := "show" |} ] |}.

(** A service without endpoints, expanded types or helpers. *)
Definition emptyData : ServiceData :=
  {| Service := {| PkgName := "empty"; Helpers := [];
                   ServiceExpandedTypes := [] |};
     Endpoints := [];
     ClientBodyAttributeTypes := [];
     ExpandedTypes := [] |}.

Definition emptySvc : ServiceExpr :=
  {| ServiceName := "empty"; HTTPEndpoints := [] |}.

(** The same service name as [shopSvc], a different list of endpoints. *)
Definition shopSvc' : ServiceExpr :=
  {| ServiceName := "shop"; HTTPEndpoints := [] |}.

Definition env : Env :=
  {| Gendir := "gen";
     SnakeCase := λ s, s;
     filepath_Join := String.concat "/";
     HTTPServices_Get := λ name,
       if String.eqb name "dup" then dupData
       else if String.eqb name "shop" then shopData
       else emptyData;
     Endpoint := λ rdata name,
       if String.eqb name "show" then showEndpoint
       else endpoint (Some itemBody) [] [] |}.

Definition root : RootExpr :=
  {| HTTPServices := [dupSvc; shopSvc; emptySvc] |}.

End Sample.

(** ** Further notions used by the properties *)

(** A section holds the data its template reads. The templates of
    client_types.go name their input ("input: InitData", "input:
    ExpandedTypeData"); for the templates defined elsewhere the check is
    the dynamic type that [clientType] stores. *)
Definition dataMatches (s : SectionTemplate) : bool :=
  match Source s, Data s with
  | headerT, HeaderData _ _ _ => true
  | typeDeclT, BodyTypeData _ => true
  | typeDeclT, ExpandedData _ => true
  | clientBodyInitT, InitSectionData _ => true
  | clientTypeInitT, InitSectionData _ => true
  | expandedTypeConvertT, ExpandedData _ => true
  | transformHelperT, HelperData _ => true
  | validateT, BodyTypeData _ => true
  | validateExpandedTypeT, ExpandedData _ => true
  | _, _ => false
  end.

(** The expanded type of a section rendered with the template [src]. *)
Definition expandedOf (src : Template) (s : SectionTemplate)
  : option ExpandedTypeData :=
  if Template_eqb (Source s) src then
    match Data s with
    | ExpandedData t => Some t
    | _ => None
    end
  else None.

(** The sections whose name tells that they were built from the service
    data alone, without going through the endpoints of the design. *)
Definition fromServiceData (s : SectionTemplate) : bool :=
  String.eqb (Name s) "client-body-attributes"
  || String.eqb (Name s) "expanded-type"
  || String.eqb (Name s) "client-result-init"
  || String.eqb (Name s) "client-error-result-init"
  || String.eqb (Name s) "expanded-type-convert"
  || String.eqb (Name s) "transform-helper"
  || String.eqb (Name s) "client-validate-expanded".

(** The state of the loop of [ClientTypeFiles] after [k] iterations of its
    body, [None] when the range is exhausted before. *)
Fixpoint loopIterFrom (E : Env) (k : nat) (genpkg : string) (root : RootExpr)
    (st : LoopState) : option LoopState :=
  match k with
  | 0 => Some st
  | S k' =>
      match loopStep E genpkg root st with
      | Some st' => loopIterFrom E k' genpkg root st'
      | None => None
      end
  end.

Definition loopIter (E : Env) (k : nat) (genpkg : string) (root : RootExpr)
  : option LoopState :=
  loopIterFrom E k genpkg root (loopInit root).

(** ** The text of the constructor templates

    [clientBodyInitT] and [clientTypeInitT] are written out below as the
    text that Go's text/template engine produces for them: an action prints
    the field it names, [if] tests a string for emptiness and a bool for
    truth, [range] repeats its body for every element, and a dash inside the
    braces removes the white space of the template next to it. [comment] is
    the function of that name that the generator gives to its templates. *)

Definition newline : string := String (Ascii.ascii_of_nat 10) EmptyString.

Definition tab : string := String (Ascii.ascii_of_nat 9) EmptyString.

Definition joinAll (l : list string) : string :=
  foldr String.append EmptyString l.

Section Templates.

Variable comment : string → string.

(** [{{ range .ClientArgs }}{{ .Name }} {{ .TypeRef }}, {{ end }}] *)
Definition renderParams (args : list InitArgData) : string :=
  joinAll ((λ a, ArgName a +:+ " " +:+ TypeRef a +:+ ", ") <$> args).

(** The two templates start alike, up to the opening brace of the function. *)
Definition renderSignature (i : InitData) : string :=
  comment (Description i) +:+ newline
  +:+ "func " +:+ InitName i +:+ "(" +:+ renderParams (ClientArgs i) +:+ ") "
  +:+ ReturnTypeRef i +:+ " {".

(** [clientBodyInitT] *)
Definition renderClientBodyInit (i : InitData) : string :=
  renderSignature i +:+ newline
  +:+ tab +:+ ClientCode i +:+ newline
  +:+ tab +:+ "return body" +:+ newline
  +:+ "}" +:+ newline.

(** [{{ if .Pointer }}&{{ end }}] *)
Definition ampersand (a : InitArgData) : string :=
  if Pointer a then "&" else EmptyString.

(** The body of the [range] of [clientTypeInitT] when there is client code:
    an assignment to the field of [v], for an argument bound to a field. *)
Definition renderAssign (a : InitArgData) : string :=
  if nonempty (FieldName a)
  then newline +:+ tab +:+ tab +:+ tab
       +:+ "v." +:+ FieldName a +:+ " = " +:+ ampersand a +:+ ArgName a
  else EmptyString.

(** The body of the [range] of [clientTypeInitT] when there is no client
    code: a field of the struct literal, for an argument bound to a field. *)
Definition renderField (a : InitArgData) : string :=
  if nonempty (FieldName a)
  then newline +:+ tab +:+ tab +:+ tab +:+ tab
       +:+ FieldName a +:+ ": " +:+ ampersand a +:+ ArgName a +:+ ","
  else EmptyString.

(** [clientTypeInitT] *)
Definition renderClientTypeInit (i : InitData) : string :=
  renderSignature i
  +:+ (if nonempty (ClientCode i) then
         newline +:+ tab +:+ tab +:+ ClientCode i
         +:+ (if nonempty (ReturnTypeAttribute i) then
                newline +:+ tab +:+ tab
                +:+ "res := &" +:+ ReturnTypeName i +:+ "{" +:+ newline
                +:+ tab +:+ tab +:+ tab
                +:+ ReturnTypeAttribute i +:+ ": v," +:+ newline
                +:+ tab +:+ tab +:+ "}"
              else EmptyString)
         +:+ (if ReturnIsStruct i
              then joinAll (renderAssign <$> ClientArgs i)
              else EmptyString)
         +:+ newline +:+ tab +:+ tab +:+ "return "
         +:+ (if nonempty (ReturnTypeAttribute i) then "res" else "v")
       else
         (if ReturnIsStruct i then
            newline +:+ tab +:+ tab +:+ tab
            +:+ "return &" +:+ ReturnTypeName i +:+ "{"
            +:+ joinAll (renderField <$> ClientArgs i)
            +:+ newline +:+ tab +:+ tab +:+ tab +:+ "}"
          else EmptyString)
         +:+ newline +:+ tab)
  +:+ "}" +:+ newline.

End Templates.

(** The arguments of a constructor that are bound to a field. *)
Definition boundArgs (args : list InitArgData) : list InitArgData :=
  List.filter (λ a, nonempty (FieldName a)) args.

(** ** Sample constructors *)

Module SampleText.

Definition comment (s : string) : string := "// " +:+ s.

(** A result constructor that returns a string and binds its second
    argument to a field. *)
Definition plain : InitData :=
  {| InitName := "NewShowEtagOK";
     Description := "NewShowEtagOK builds the result of show";
     ClientArgs := [ {| ArgName := "body"; TypeRef := "string";
                        FieldName := EmptyString; Pointer := false |};
                     {| ArgName := "etag"; TypeRef := "string";
                        FieldName := "ETag"; Pointer := true |} ];
     ReturnTypeRef := "string";
     ReturnTypeName := "string";
     ReturnTypeAttribute := EmptyString;
     ReturnIsStruct := false;
     ClientCode := "v := body" |}.

(** The same constructor without any field binding. *)
Definition unbound : InitData :=
  {| InitName := "NewShowEtagOK";
     Description := "NewShowEtagOK builds the result of show";
     ClientArgs := [ {| ArgName := "body"; TypeRef := "string";
                        FieldName := EmptyString; Pointer := false |};
                     {| ArgName := "etag"; TypeRef := "string";
                        FieldName := EmptyString; Pointer := false |} ];
     ReturnTypeRef := "string";
     ReturnTypeName := "string";
     ReturnTypeAttribute := EmptyString;
     ReturnIsStruct := false;
     ClientCode := "v := body" |}.

(** The same constructor again, flagged as returning a struct named [Etag]. *)
Definition flagged : InitData :=
  {| InitName := "NewShowEtagOK";
     Description := "NewShowEtagOK builds the result of show";
     ClientArgs := [ {| ArgName := "body"; TypeRef := "string";
                        FieldName := EmptyString; Pointer := false |};
                     {| ArgName := "etag"; TypeRef := "string";
                        FieldName := "ETag"; Pointer := true |} ];
     ReturnTypeRef := "string";
     ReturnTypeName := "Etag";
     ReturnTypeAttribute := "Value";
     ReturnIsStruct := true;
     ClientCode := "v := body" |}.

End SampleText.

(** ** A service whose response body is not declared *)

Module SampleBare.

(** A response body without definition text, with a validation and with an
    [Init]. *)
Definition listResponse : TypeData :=
  Sample.body "ListResponseBody" EmptyString "err = goa.MergeErrors(err, nil)"
    (Some (Sample.init "NewListResponseBody" "ListResponseBody")).

Definition listEndpoint : EndpointData :=
  Sample.endpoint None
    [ {| ClientBody := Some listResponse; ResultInit := None |} ] [].

Definition bareData : ServiceData :=
  {| Service := {| PkgName := "bare"; Helpers := [];
                   ServiceExpandedTypes := [] |};
     Endpoints := [listEndpoint];
     ClientBodyAttributeTypes := [];
     ExpandedTypes := [] |}.

Definition bareSvc : ServiceExpr :=
  {| ServiceName := "bare"; HTTPEndpoints := [ {| EndpointName := "list" |} ] |}.

Definition env : Env :=
  {| Gendir := "gen";
     SnakeCase := λ s, s;
     filepath_Join := String.concat "/";
     HTTPServices_Get := λ _, bareData;
     Endpoint := λ _ _, listEndpoint |}.

(** A result constructor that returns a struct and binds its second
    argument to a field, and the same constructor with a pointer mark on its
    first, unbound, argument. *)
Definition structInit (mark : bool) : InitData :=
  {| InitName := "NewListItemOK";
     Description := "NewListItemOK builds the result of list";
     ClientArgs := [ {| ArgName := "body"; TypeRef := "*ListResponseBody";
                        FieldName := EmptyString; Pointer := mark |};
                     {| ArgName := "etag"; TypeRef := "string";
                        FieldName := "ETag"; Pointer := true |} ];
     ReturnTypeRef := "*Item";
     ReturnTypeName := "Item";
     ReturnTypeAttribute := EmptyString;
     ReturnIsStruct := true;
     ClientCode := "v := NewItem(body)" |}.

End SampleBare.

(** * Properties *)

(** ** Folding the loops *)

Lemma foldl_mbind {A B C} (f : A → C → A) (g : B → list C) (l : list B) (a : A) :
  foldl (λ a x, foldl f a (g x)) a l = foldl f a (l ≫= g).
Proof.
  revert a. induction l as [|x l IH]; intros a; simpl; [done|].
  by rewrite foldl_app, IH.
Qed.

Lemma foldl_omap {A B C} (f : A → C → A) (g : B → option C) (l : list B) (a : A) :
  foldl (λ a x, match g x with Some y => f a y | None => a end) a l
  = foldl f a (omap g l).
Proof.
  revert a. induction l as [|x l IH]; intros a; simpl; [done|].
  rewrite IH. by destruct (g x).
Qed.

Lemma addSections_nil (p : Plan) : addSections p [] = p.
Proof. destruct p. unfold addSections. simpl. by rewrite app_nil_r. Qed.

Lemma addSections_app (p : Plan) (l k : list SectionTemplate) :
  addSections (addSections p l) k = addSections p (l ++ k).
Proof. unfold addSections. simpl. by rewrite app_assoc. Qed.

Lemma foldl_appendSection {A} (f : A → SectionTemplate) (l : list A) (p : Plan) :
  foldl (λ p x, appendSection p (f x)) p l = addSections p (f <$> l).
Proof.
  revert p. induction l as [|x l IH]; intros p; simpl.
  - by rewrite addSections_nil.
  - rewrite IH. unfold addSections, appendSection. simpl.
    by rewrite <- app_assoc.
Qed.

Lemma foldl_visit (name : string) (l : list TypeData) (p : Plan) :
  foldl (λ p d, collectValidated d (declare name d p)) p l
  = {| sections := sections p ++ typeDecls name l;
       initData := initData p;
       validatedTypes :=
         validatedTypes p ++ List.filter (λ d, nonempty (ValidateDef d)) l |}.
Proof.
  revert p. induction l as [|d l IH]; intros p; simpl.
  - unfold typeDecls. simpl. rewrite !app_nil_r. by destruct p.
  - rewrite IH. unfold typeDecls, collectValidated, declare. simpl.
    destruct (nonempty (Def d)), (nonempty (ValidateDef d)); simpl;
      by rewrite <- ?app_assoc.
Qed.

Lemma foldl_requestBody (l : list TypeData) (p : Plan) :
  foldl (λ p d, collectValidated d
                  (collectInit d (declare "client-request-body" d p))) p l
  = {| sections := sections p ++ typeDecls "client-request-body" l;
       initData := initData p ++ omap Init l;
       validatedTypes :=
         validatedTypes p ++ List.filter (λ d, nonempty (ValidateDef d)) l |}.
Proof.
  revert p. induction l as [|d l IH]; intros p; simpl.
  - unfold typeDecls. simpl. rewrite !app_nil_r. by destruct p.
  - rewrite IH. unfold typeDecls, collectValidated, collectInit, declare. simpl.
    destruct (nonempty (Def d)), (Init d), (nonempty (ValidateDef d)); simpl;
      by rewrite <- ?app_assoc.
Qed.

Lemma foldl_resultInit {A} (name : string) (g : A → ResponseData) (l : list A)
    (p : Plan) :
  foldl (λ q x, resultInit name (g x) q) p l
  = addSections p
      ((λ i, sectionOf name clientTypeInitT (InitSectionData i))
         <$> omap (λ x, ResultInit (g x)) l).
Proof.
  revert p. induction l as [|x l IH]; intros p; simpl.
  - by rewrite addSections_nil.
  - rewrite IH. unfold resultInit. destruct (ResultInit (g x)); simpl; [|done].
    unfold addSections, appendSection. simpl. by rewrite <- app_assoc.
Qed.

Lemma foldl_resultInitStep (l : list EndpointData) (p : Plan) :
  foldl resultInitStep p l = addSections p (l ≫= endpointResultInits).
Proof.
  revert p. induction l as [|x l IH]; intros p; simpl.
  - by rewrite addSections_nil.
  - rewrite IH. unfold resultInitStep.
    rewrite (foldl_resultInit _ (λ r, r)), (foldl_resultInit _ Response).
    rewrite !addSections_app. f_equal.
    unfold endpointResultInits. by rewrite <- !app_assoc.
Qed.

Lemma omap_mbind {A B C} (f : B → option C) (g : A → list B) (l : list A) :
  omap f (l ≫= g) = l ≫= λ x, omap f (g x).
Proof.
  induction l as [|x l IH]; [done|].
  change ((x :: l) ≫= g) with (g x ++ (l ≫= g)).
  rewrite omap_app, IH. done.
Qed.

Section LayoutProofs.

Variable E : Env.

Lemma requestBody_loop (rdata : ServiceData) (l : list EndpointExpr) (p : Plan) :
  foldl (requestBodyStep E rdata) p l
  = {| sections :=
         sections p ++ typeDecls "client-request-body" (omap (requestBody E rdata) l);
       initData := initData p ++ omap Init (omap (requestBody E rdata) l);
       validatedTypes :=
         validatedTypes p
         ++ List.filter (λ d, nonempty (ValidateDef d))
              (omap (requestBody E rdata) l) |}.
Proof.
  rewrite <- foldl_requestBody. unfold requestBodyStep.
  apply (foldl_omap _ (requestBody E rdata)).
Qed.

Lemma responseBody_loop (l : list ResponseData) (p : Plan) :
  foldl responseBodyStep p l
  = foldl (λ p d, collectValidated d (declare "client-response-body" d p)) p
      (omap ClientBody l).
Proof. apply (foldl_omap _ ClientBody). Qed.

Lemma errorBody_loop (l : list ErrorData) (p : Plan) :
  foldl errorBodyStep p l
  = foldl (λ p d, collectValidated d (declare "client-error-body" d p)) p
      (omap (λ herr, ClientBody (Response herr)) l).
Proof. apply (foldl_omap _ (λ herr, ClientBody (Response herr))). Qed.

Lemma clientType_sections (genpkg : string) (svc : ServiceExpr) (seen : gset string) :
  SectionTemplates (clientType E genpkg svc seen).1
  = fileHeader E genpkg svc
    :: declarationPhase E svc
    ++ constructorPhase E svc
    ++ convertPhase (HTTPServices_Get E (ServiceName svc))
    ++ helperPhase (HTTPServices_Get E (ServiceName svc))
    ++ validatorPhase E svc.
Proof.
  unfold clientType. cbn [fst SectionTemplates].
  rewrite requestBody_loop.
  rewrite (foldl_mbind responseBodyStep), responseBody_loop, omap_mbind,
    foldl_visit.
  rewrite (foldl_mbind errorBodyStep), errorBody_loop, omap_mbind, foldl_visit.
  unfold bodyAttributeStep. rewrite foldl_visit.
  rewrite !foldl_appendSection, foldl_resultInitStep.
  cbn [sections initData validatedTypes addSections].
  unfold declarationPhase, constructorPhase, validatorPhase, bodyValidators,
    bodyTypes, bodyInits, expandedDecls, convertPhase, helperPhase,
    expandedValidators, requestBodies, responseBodies, errorBodies.
  rewrite !List.filter_app, !fmap_app.
  simpl. rewrite <- !app_assoc. done.
Qed.

End LayoutProofs.

(** ** Phase ranks *)

Lemma fmap_const_replicate {A B} (f : A → B) (k : B) (l : list A) :
  Forall (λ x, f x = k) l → f <$> l = replicate (length l) k.
Proof.
  induction 1 as [|x l Hx _ IH]; simpl; [done|]. rewrite Hx. f_equal. apply IH.
Qed.

Lemma elem_of_blocks (l : list (nat * nat)) (x : nat) :
  x ∈ blocks l → x ∈ l.*2.
Proof.
  induction l as [|[n k] r IH]; simpl; [done|].
  intros [H%elem_of_replicate|H]%elem_of_app.
  - destruct H as [-> _]. by left.
  - right. by apply IH.
Qed.

Lemma blocks_sorted (l : list (nat * nat)) :
  StronglySorted le l.*2 → StronglySorted le (blocks l).
Proof.
  induction l as [|[n k] r IH]; simpl; [constructor|].
  intros [Hk Hr]%StronglySorted_cons.
  apply StronglySorted_app_2; [ | | by apply IH].
  - intros x1 x2 [-> _]%elem_of_replicate Hx2%elem_of_blocks.
    rewrite Forall_forall in Hk. by apply Hk.
  - clear. induction n as [|n IHn]; simpl; constructor; [done|].
    apply Forall_forall. by intros x [-> _]%elem_of_replicate.
Qed.

Lemma Forall_fmap_intro {A B} (f : A → B) (P : B → Prop) (l : list A) :
  (∀ x, P (f x)) → Forall P (f <$> l).
Proof. intros H. apply Forall_fmap, Forall_true. intros x. apply H. Qed.

Lemma Forall_bind_intro {A B} (f : A → list B) (P : B → Prop) (l : list A) :
  (∀ x, Forall P (f x)) → Forall P (l ≫= f).
Proof. intros H. apply Forall_bind, Forall_true. intros x. apply H. Qed.

Ltac solve_Forall :=
  repeat first
    [ apply Forall_nil_2
    | apply Forall_app_2
    | apply Forall_fmap_intro; intros ?
    | apply Forall_bind_intro; intros ? ];
  try reflexivity.

Section PhaseProofs.

Variable E : Env.

Lemma typeDecls_Forall (P : SectionTemplate → Prop) (name : string)
    (l : list TypeData) :
  (∀ d, P (sectionOf name typeDeclT (BodyTypeData d))) →
  Forall P (typeDecls name l).
Proof.
  intros H. unfold typeDecls. by apply Forall_fmap_intro.
Qed.

Lemma resultInits_phase (rdata : ServiceData) :
  Forall (λ s, phaseOf s = 7) (resultInits rdata).
Proof. unfold resultInits, endpointResultInits. solve_Forall. Qed.

(** C3: the sections of a file are the header, then the type declarations
    (request bodies, response bodies, error bodies, body attribute types,
    expanded types), then the body constructors and the result constructors
    (per endpoint, the responses then the errors), then the view
    conversions, then the transform helpers, then the validators; the phase
    ranks of the sections never decrease along the file. *)
Theorem clientType_phase_order (genpkg : string) (svc : ServiceExpr)
    (seen : gset string) :
  let rdata := HTTPServices_Get E (ServiceName svc) in
  SectionTemplates (clientType E genpkg svc seen).1
  = [fileHeader E genpkg svc]
    ++ (typeDecls "client-request-body" (requestBodies E svc)
        ++ typeDecls "client-response-body" (responseBodies E svc)
        ++ typeDecls "client-error-body" (errorBodies E svc)
        ++ typeDecls "client-body-attributes" (ClientBodyAttributeTypes rdata)
        ++ expandedDecls rdata)
    ++ (bodyInits E svc ++ resultInits rdata)
    ++ convertPhase rdata
    ++ helperPhase rdata
    ++ (bodyValidators E svc ++ expandedValidators rdata)
  ∧ StronglySorted le (phaseOf <$> SectionTemplates (clientType E genpkg svc seen).1).
Proof.
  intros rdata. split; [apply clientType_sections|].
  rewrite clientType_sections.
  unfold declarationPhase, constructorPhase, validatorPhase.
  fold rdata.
  rewrite fmap_cons, !fmap_app.
  rewrite (fmap_const_replicate phaseOf 1 (typeDecls "client-request-body" _))
    by (by apply typeDecls_Forall).
  rewrite (fmap_const_replicate phaseOf 2 (typeDecls "client-response-body" _))
    by (by apply typeDecls_Forall).
  rewrite (fmap_const_replicate phaseOf 3 (typeDecls "client-error-body" _))
    by (by apply typeDecls_Forall).
  rewrite (fmap_const_replicate phaseOf 4 (typeDecls "client-body-attributes" _))
    by (by apply typeDecls_Forall).
  rewrite (fmap_const_replicate phaseOf 5 (expandedDecls _))
    by (unfold expandedDecls; solve_Forall).
  rewrite (fmap_const_replicate phaseOf 6 (bodyInits _ _))
    by (unfold bodyInits; solve_Forall).
  rewrite (fmap_const_replicate phaseOf 7 (resultInits _))
    by apply resultInits_phase.
  rewrite (fmap_const_replicate phaseOf 8 (convertPhase _))
    by (unfold convertPhase; solve_Forall).
  rewrite (fmap_const_replicate phaseOf 9 (helperPhase _))
    by (unfold helperPhase; solve_Forall).
  rewrite (fmap_const_replicate phaseOf 10 (bodyValidators _ _))
    by (unfold bodyValidators; solve_Forall).
  rewrite (fmap_const_replicate phaseOf 11 (expandedValidators _))
    by (unfold expandedValidators; solve_Forall).
  rewrite <- !app_assoc, <- (app_nil_r (replicate _ 11)).
  match goal with
  | |- StronglySorted le
         (_ :: replicate ?n1 1 ++ replicate ?n2 2 ++ replicate ?n3 3
            ++ replicate ?n4 4 ++ replicate ?n5 5 ++ replicate ?n6 6
            ++ replicate ?n7 7 ++ replicate ?n8 8 ++ replicate ?n9 9
            ++ replicate ?n10 10 ++ replicate ?n11 11 ++ []) =>
      change (StronglySorted le
                (blocks [(1, 0); (n1, 1); (n2, 2); (n3, 3); (n4, 4); (n5, 5);
                         (n6, 6); (n7, 7); (n8, 8); (n9, 9); (n10, 10);
                         (n11, 11)]))
  end.
  apply blocks_sorted. simpl.
  repeat (apply SSorted_cons; [|repeat constructor; lia]). constructor.
Qed.

End PhaseProofs.

(** ** Kinds of the sections of each phase *)

Lemma filter_none {A} (f : A → bool) (l : list A) :
  Forall (λ x, f x = false) l → List.filter f l = [].
Proof. induction 1 as [|x l Hx _ IH]; simpl; [done|]. by rewrite Hx. Qed.

Lemma filter_all {A} (f : A → bool) (l : list A) :
  Forall (λ x, f x = true) l → List.filter f l = l.
Proof.
  induction 1 as [|x l Hx _ IH]; simpl; [done|]. rewrite Hx. by f_equal.
Qed.

Lemma bind_none {A B} (g : A → list B) (l : list A) :
  Forall (λ x, g x = []) l → l ≫= g = [].
Proof.
  induction 1 as [|x l Hx _ IH]; [done|].
  change ((x :: l) ≫= g) with (g x ++ (l ≫= g)). by rewrite Hx, IH.
Qed.

Lemma elem_of_filter_bool {A} (f : A → bool) (l : list A) (x : A) :
  x ∈ l → f x = true → x ∈ List.filter f l.
Proof.
  intros Hx Hf. apply list_elem_of_In, filter_In. split; [|done].
  by apply list_elem_of_In.
Qed.

Section KindProofs.

Variable E : Env.

Lemma declarationPhase_Forall (P : SectionTemplate → Prop) (svc : ServiceExpr) :
  (∀ name d, P (sectionOf name typeDeclT d)) →
  Forall P (declarationPhase E svc).
Proof.
  intros H. unfold declarationPhase, typeDecls, expandedDecls.
  solve_Forall; apply H.
Qed.

Lemma constructorPhase_Forall (P : SectionTemplate → Prop) (svc : ServiceExpr) :
  (∀ name i, P (sectionOf name clientBodyInitT (InitSectionData i))) →
  (∀ name i, P (sectionOf name clientTypeInitT (InitSectionData i))) →
  Forall P (constructorPhase E svc).
Proof.
  intros H1 H2.
  unfold constructorPhase, bodyInits, resultInits, endpointResultInits.
  solve_Forall; first [apply H1 | apply H2].
Qed.

Lemma convertPhase_Forall (P : SectionTemplate → Prop) (rdata : ServiceData) :
  (∀ name t, P (sectionOf name expandedTypeConvertT (ExpandedData t))) →
  Forall P (convertPhase rdata).
Proof. intros H. unfold convertPhase. solve_Forall; apply H. Qed.

Lemma helperPhase_Forall (P : SectionTemplate → Prop) (rdata : ServiceData) :
  (∀ name h, P (sectionOf name transformHelperT (HelperData h))) →
  Forall P (helperPhase rdata).
Proof. intros H. unfold helperPhase. solve_Forall; apply H. Qed.

Lemma validatorPhase_Forall (P : SectionTemplate → Prop) (svc : ServiceExpr) :
  (∀ name d, P (sectionOf name validateT d)) →
  (∀ name d, P (sectionOf name validateExpandedTypeT d)) →
  Forall P (validatorPhase E svc).
Proof.
  intros H1 H2. unfold validatorPhase, bodyValidators, expandedValidators.
  solve_Forall; first [apply H1 | apply H2].
Qed.

(** The sections up to the last type declaration hold no constructor, view
    conversion, transform helper or validator. *)
Lemma declarations_not_dependent (genpkg : string) (svc : ServiceExpr) :
  Forall (λ s, isDependent s = false)
    (fileHeader E genpkg svc :: declarationPhase E svc).
Proof. constructor; [done|]. by apply declarationPhase_Forall. Qed.

(** The sections after the last type declaration declare no type. *)
Lemma later_phases_not_declarations (svc : ServiceExpr) :
  Forall (λ s, isTypeDecl s = false)
    (constructorPhase E svc
     ++ convertPhase (HTTPServices_Get E (ServiceName svc))
     ++ helperPhase (HTTPServices_Get E (ServiceName svc))
     ++ validatorPhase E svc).
Proof.
  apply Forall_app_2; [by apply constructorPhase_Forall|].
  apply Forall_app_2; [by apply convertPhase_Forall|].
  apply Forall_app_2; [by apply helperPhase_Forall|].
  by apply validatorPhase_Forall.
Qed.

(** C4: in the file of a service, every type-declaration section stands
    before every constructor, view-conversion, transform-helper and validator
    section, whatever types these sections refer to; so a section that refers
    to a declared type comes strictly after the declaration. *)
Theorem typeDecl_precedes_dependents (genpkg : string) (svc : ServiceExpr)
    (seen : gset string) (i j : nat) (d c : SectionTemplate) :
  SectionTemplates (clientType E genpkg svc seen).1 !! i = Some d →
  SectionTemplates (clientType E genpkg svc seen).1 !! j = Some c →
  isTypeDecl d = true →
  isDependent c = true →
  i < j.
Proof.
  rewrite clientType_sections, app_comm_cons.
  intros Hi Hj Hd Hc.
  pose proof (declarations_not_dependent genpkg svc) as Hpre.
  pose proof (later_phases_not_declarations svc) as Hpost.
  destruct (decide (i < length (fileHeader E genpkg svc :: declarationPhase E svc)))
    as [Hlt|Hge].
  - destruct (decide (j < length (fileHeader E genpkg svc :: declarationPhase E svc)))
      as [Hjlt|Hjge]; [|lia].
    rewrite lookup_app_l in Hj by done.
    pose proof (Forall_lookup_1 _ _ _ _ Hpre Hj) as Hn. simpl in Hn. congruence.
  - rewrite lookup_app_r in Hi by lia.
    pose proof (Forall_lookup_1 _ _ _ _ Hpost Hi) as Hn. simpl in Hn. congruence.
Qed.

(** C5, as the code has it: the validator sections of a file are one
    validator per body descriptor whose validation text is not empty, in
    type-declaration order (request bodies, response bodies, error bodies,
    body attribute types), followed by one validator per entry of the
    expanded types of the service, in order, whether or not the entry has
    validation code. *)
Theorem clientType_validators (genpkg : string) (svc : ServiceExpr)
    (seen : gset string) :
  List.filter isValidator (SectionTemplates (clientType E genpkg svc seen).1)
  = ((λ d, sectionOf "client-validate" validateT (BodyTypeData d))
       <$> List.filter (λ d, nonempty (ValidateDef d))
             (requestBodies E svc ++ responseBodies E svc ++ errorBodies E svc
              ++ ClientBodyAttributeTypes (HTTPServices_Get E (ServiceName svc))))
    ++ ((λ t, sectionOf "client-validate-expanded" validateExpandedTypeT
                (ExpandedData t))
          <$> ServiceExpandedTypes (Service (HTTPServices_Get E (ServiceName svc)))).
Proof.
  rewrite clientType_sections. simpl.
  rewrite !List.filter_app.
  rewrite (filter_none _ (declarationPhase E svc))
    by (by apply declarationPhase_Forall).
  rewrite (filter_none _ (constructorPhase E svc))
    by (by apply constructorPhase_Forall).
  rewrite (filter_none _ (convertPhase _)) by (by apply convertPhase_Forall).
  rewrite (filter_none _ (helperPhase _)) by (by apply helperPhase_Forall).
  rewrite (filter_all _ (validatorPhase E svc))
    by (by apply validatorPhase_Forall).
  simpl. unfold validatorPhase, bodyValidators, bodyTypes, expandedValidators.
  by rewrite !List.filter_app.
Qed.


(** C6, as the code has it: whether or not the type-declaration section of
    a body was emitted (nothing below looks at [Def]), the body constructor
    sections of a file are exactly the [Init] of the request bodies that have
    one, the result constructor sections exactly the [ResultInit] of the
    responses and of the errors of the endpoints of the service data, and
    the body validator sections exactly the visited bodies (request,
    response, error, body attribute) whose validation text is not empty, all
    in the order of the visit. So the constructor of every request body and
    the validator of every body are sections of the file, and the [Init] of a
    response, error or body attribute body gives no section. *)
Theorem constructors_and_validators_regardless_of_declaration (genpkg : string)
    (svc : ServiceExpr) (seen : gset string) :
  let rdata := HTTPServices_Get E (ServiceName svc) in
  let file := (clientType E genpkg svc seen).1 in
  List.filter (λ s, Template_eqb (Source s) clientBodyInitT)
    (SectionTemplates file)
  = ((λ i, sectionOf "client-body-init" clientBodyInitT (InitSectionData i))
       <$> omap Init (requestBodies E svc))
  ∧ List.filter (λ s, Template_eqb (Source s) clientTypeInitT)
      (SectionTemplates file)
    = (Endpoints rdata ≫= λ adata,
         ((λ i, sectionOf "client-result-init" clientTypeInitT (InitSectionData i))
            <$> omap ResultInit (Responses (Result adata)))
         ++ ((λ i, sectionOf "client-error-result-init" clientTypeInitT
                     (InitSectionData i))
               <$> omap (λ herr, ResultInit (Response herr)) (Errors adata)))
  ∧ List.filter (λ s, Template_eqb (Source s) validateT) (SectionTemplates file)
    = ((λ d, sectionOf "client-validate" validateT (BodyTypeData d))
         <$> List.filter (λ d, nonempty (ValidateDef d))
               (requestBodies E svc ++ responseBodies E svc ++ errorBodies E svc
                ++ ClientBodyAttributeTypes rdata))
  ∧ (∀ d i, d ∈ requestBodies E svc → Init d = Some i →
       sectionOf "client-body-init" clientBodyInitT (InitSectionData i)
         ∈ SectionTemplates file)
  ∧ (∀ d, d ∈ bodyTypes E svc → nonempty (ValidateDef d) = true →
       sectionOf "client-validate" validateT (BodyTypeData d)
         ∈ SectionTemplates file).
Proof.
  intros rdata file. unfold file. rewrite clientType_sections. fold rdata.
  unfold constructorPhase, validatorPhase. fold rdata.
  assert (Hd : ∀ f : SectionTemplate → bool,
            (∀ name d, f (sectionOf name typeDeclT d) = false) →
            List.filter f (declarationPhase E svc) = []).
  { intros f Hf. apply filter_none. by apply declarationPhase_Forall. }
  split; [|split; [|split; [|split]]].
  - cbn [List.filter Template_eqb Source fileHeader Header].
    rewrite !List.filter_app, Hd by done.
    rewrite (filter_all _ (bodyInits E svc)) by (unfold bodyInits; solve_Forall).
    rewrite (filter_none _ (resultInits rdata))
      by (unfold resultInits, endpointResultInits; solve_Forall).
    rewrite (filter_none _ (convertPhase _)) by (by apply convertPhase_Forall).
    rewrite (filter_none _ (helperPhase _)) by (by apply helperPhase_Forall).
    rewrite (filter_none _ (bodyValidators E svc))
      by (unfold bodyValidators; solve_Forall).
    rewrite (filter_none _ (expandedValidators rdata))
      by (unfold expandedValidators; solve_Forall).
    simpl. rewrite ?app_nil_r. reflexivity.
  - cbn [List.filter Template_eqb Source fileHeader Header].
    rewrite !List.filter_app, Hd by done.
    rewrite (filter_none _ (bodyInits E svc)) by (unfold bodyInits; solve_Forall).
    rewrite (filter_all _ (resultInits rdata))
      by (unfold resultInits, endpointResultInits; solve_Forall).
    rewrite (filter_none _ (convertPhase _)) by (by apply convertPhase_Forall).
    rewrite (filter_none _ (helperPhase _)) by (by apply helperPhase_Forall).
    rewrite (filter_none _ (bodyValidators E svc))
      by (unfold bodyValidators; solve_Forall).
    rewrite (filter_none _ (expandedValidators rdata))
      by (unfold expandedValidators; solve_Forall).
    simpl. rewrite ?app_nil_r. reflexivity.
  - cbn [List.filter Template_eqb Source fileHeader Header].
    rewrite !List.filter_app, Hd by done.
    rewrite (filter_none _ (bodyInits E svc)) by (unfold bodyInits; solve_Forall).
    rewrite (filter_none _ (resultInits rdata))
      by (unfold resultInits, endpointResultInits; solve_Forall).
    rewrite (filter_none _ (convertPhase _)) by (by apply convertPhase_Forall).
    rewrite (filter_none _ (helperPhase _)) by (by apply helperPhase_Forall).
    rewrite (filter_all _ (bodyValidators E svc))
      by (unfold bodyValidators; solve_Forall).
    rewrite (filter_none _ (expandedValidators rdata))
      by (unfold expandedValidators; solve_Forall).
    simpl. rewrite ?app_nil_r. unfold bodyValidators, bodyTypes. fold rdata.
    by rewrite !List.filter_app.
  - intros d i Hin Hi. right.
    apply elem_of_app. right. apply elem_of_app. left. apply elem_of_app. left.
    unfold bodyInits.
    apply (list_elem_of_fmap_2 (λ i, sectionOf _ _ (InitSectionData i))).
    apply list_elem_of_omap. eauto.
  - intros d Hin Hv. right.
    do 4 (apply elem_of_app; right). apply elem_of_app. left.
    unfold bodyValidators.
    apply (list_elem_of_fmap_2 (λ d, sectionOf _ _ (BodyTypeData d))).
    by apply elem_of_filter_bool.
Qed.

End KindProofs.

(** ** View conversions *)

Section ConvertProofs.

Variable E : Env.

Lemma convertPhase_funcs (rdata : ServiceData) :
  convertPhase rdata ≫= sectionConvertFuncs
  = ExpandedTypes rdata ≫= renderExpandedTypeConvert.
Proof.
  unfold convertPhase. induction (ExpandedTypes rdata) as [|t l IH]; [done|].
  rewrite fmap_cons.
  change ((?x :: ?l) ≫= ?g) with (g x ++ (l ≫= g)). by rewrite IH.
Qed.

(** C7: the conversion functions of a file are those of its expanded types,
    type after type; an expanded type with N views yields exactly N
    functions, the k-th one built from the k-th view: its name and receiver
    are the view's, its return type is the result type declared for the
    expanded type. *)
Theorem expandedType_view_conversions (genpkg : string) (svc : ServiceExpr)
    (seen : gset string) :
  let rdata := HTTPServices_Get E (ServiceName svc) in
  convertFuncs (clientType E genpkg svc seen).1
  = ExpandedTypes rdata ≫= renderExpandedTypeConvert
  ∧ (∀ t, length (renderExpandedTypeConvert t) = length (Views t))
  ∧ (∀ t k,
       renderExpandedTypeConvert t !! k
       = (λ v, {| ConvertComment := (ToResult v, ExpName t, ResultName t, View v);
                  Receiver := ViewRef v;
                  FuncName := ToResult v;
                  ReturnType := ResultRef t;
                  Body := ToResultCode v |}) <$> Views t !! k)
  ∧ (∀ t, Forall (λ c, ReturnType c = ResultRef t) (renderExpandedTypeConvert t)).
Proof.
  intros rdata. repeat split.
  - unfold convertFuncs. rewrite clientType_sections. fold rdata.
    change ((?x :: ?l) ≫= ?g) with (g x ++ (l ≫= g)).
    rewrite !bind_app, convertPhase_funcs.
    rewrite (bind_none _ (declarationPhase E svc))
      by (by apply declarationPhase_Forall).
    rewrite (bind_none _ (constructorPhase E svc))
      by (by apply constructorPhase_Forall).
    rewrite (bind_none _ (helperPhase _)) by (by apply helperPhase_Forall).
    rewrite (bind_none _ (validatorPhase E svc))
      by (by apply validatorPhase_Forall).
    simpl. by rewrite app_nil_r.
  - intros t. unfold renderExpandedTypeConvert. by rewrite length_fmap.
  - intros t k. unfold renderExpandedTypeConvert. by rewrite list_lookup_fmap.
  - intros t. unfold renderExpandedTypeConvert. by apply Forall_fmap_intro.
Qed.

(** ** The path of the file *)

(** C8: the path of the file of a service is the join of the generation
    root, [http], the snake-cased service name, [client] and [types.go]; two
    services with the same name get the same path, whatever their endpoints,
    the package of the generated code and the registry are. *)
Theorem clientType_path (genpkg1 genpkg2 : string) (svc1 svc2 : ServiceExpr)
    (seen1 seen2 : gset string) :
  ServiceName svc1 = ServiceName svc2 →
  Path (clientType E genpkg1 svc1 seen1).1
  = filepath_Join E
      [Gendir E; "http"; SnakeCase E (ServiceName svc1); "client"; "types.go"]
  ∧ Path (clientType E genpkg1 svc1 seen1).1
    = Path (clientType E genpkg2 svc2 seen2).1.
Proof. intros Hname. unfold clientType. simpl. by rewrite Hname. Qed.

(** ** The registry *)

(** [clientType] neither reads nor writes the registry. *)
Lemma clientType_seen (genpkg : string) (svc : ServiceExpr) (seen : gset string) :
  clientType E genpkg svc seen = ((clientType E genpkg svc ∅).1, seen).
Proof. done. Qed.

End ConvertProofs.

(** ** The loop of [ClientTypeFiles] *)

Section LoopProofs.

Variable E : Env.

Lemma loopRun_done (fuel : nat) (genpkg : string) (root : RootExpr)
    (st : LoopState) :
  loopStep E genpkg root st = None →
  loopRun E fuel genpkg root st = Some (loop_fw st).
Proof. intros H. destruct fuel; simpl; by rewrite H. Qed.

Lemma loopRun_step (fuel : nat) (genpkg : string) (root : RootExpr)
    (st st' : LoopState) :
  loopStep E genpkg root st = Some st' →
  loopRun E (S fuel) genpkg root st = loopRun E fuel genpkg root st'.
Proof. intros H. simpl. by rewrite H. Qed.


(** From a state that has [k] services left, [k] iterations suffice, and the
    run returns the files already stored followed by the files of the
    remaining services. *)
Lemma loopRun_enough (genpkg : string) (root : RootExpr) (k : nat) :
  ∀ (st : LoopState) (fuel : nat),
    loop_i st + k = length (HTTPServices root) →
    length (loop_fw st) = length (HTTPServices root) →
    k ≤ fuel →
    loopRun E fuel genpkg root st
    = Some (take (loop_i st) (loop_fw st)
            ++ ((λ svc, Some (clientType E genpkg svc ∅).1)
                  <$> drop (loop_i st) (HTTPServices root))).
Proof.
  induction k as [|k IH]; intros st fuel Hi Hlen Hfuel.
  - rewrite loopRun_done.
    + rewrite take_ge, drop_ge by lia. by rewrite app_nil_r.
    + unfold loopStep. rewrite lookup_ge_None_2 by lia. done.
  - destruct (lookup_lt_is_Some_2 (HTTPServices root) (loop_i st)) as [svc Hsvc];
      [lia|].
    destruct fuel as [|fuel]; [lia|].
    erewrite loopRun_step; last first.
    { unfold loopStep. rewrite Hsvc, clientType_seen. done. }
    rewrite IH; cbn [loop_i loop_fw]; rewrite ?length_insert; [|lia..].
    f_equal.
    rewrite (take_S_r _ _ (Some (clientType E genpkg svc ∅).1))
      by (apply list_lookup_insert_eq; lia).
    rewrite take_insert_ge by lia.
    rewrite (drop_S _ _ _ Hsvc), fmap_cons, <- app_assoc. done.
Qed.

(** [ClientTypeFiles] is the result of the run of its loop. *)
Lemma ClientTypeFiles_run (genpkg : string) (root : RootExpr) :
  loopRun E (length (HTTPServices root)) genpkg root (loopInit root)
  = Some ((λ svc, Some (clientType E genpkg svc ∅).1) <$> HTTPServices root).
Proof.
  rewrite (loopRun_enough genpkg root (length (HTTPServices root)));
    cbn [loopInit loop_i loop_fw]; rewrite ?length_replicate; done.
Qed.


(** C10: [ClientTypeFiles] returns one file per service of the design, in
    the order of the services, and no entry of the slice is left nil; the
    sections of every file start with the header section, also when the
    service has no endpoint, expanded type or helper. *)
Theorem ClientTypeFiles_one_file_per_service (genpkg : string) (root : RootExpr) :
  ClientTypeFiles E genpkg root
  = (λ svc, Some (clientType E genpkg svc ∅).1) <$> HTTPServices root
  ∧ length (ClientTypeFiles E genpkg root) = length (HTTPServices root)
  ∧ (∀ svc seen,
       head (SectionTemplates (clientType E genpkg svc seen).1)
       = Some (fileHeader E genpkg svc)).
Proof.
  unfold ClientTypeFiles. rewrite ClientTypeFiles_run. cbn [default].
  split; [done|]. split.
  - apply length_fmap.
  - intros svc seen. by rewrite clientType_sections.
Qed.

End LoopProofs.

(** ** The registry is never consulted *)

(** C1 does not hold of the code: [clientType] receives the registry of
    the names already generated but never claims a name in it, so two body
    descriptors with the same type name and a definition text both get a
    type-declaration section. Here the two endpoints of a service share the
    request body type [ItemRequestBody]: the file declares it twice, and the
    registry is still empty when the call returns. *)
Theorem clientType_duplicate_declarations :
  declaredNames (clientType Sample.env "goa.design/example" Sample.dupSvc ∅).1
  = ["ItemRequestBody"; "ItemRequestBody"]
  ∧ ¬ NoDup
        (declaredNames
           (clientType Sample.env "goa.design/example" Sample.dupSvc ∅).1)
  ∧ (clientType Sample.env "goa.design/example" Sample.dupSvc ∅).2 = ∅.
Proof.
  split; [reflexivity|]. split; [|reflexivity].
  change (declaredNames _) with ["ItemRequestBody"; "ItemRequestBody"].
  intros [Hn _]%NoDup_cons. apply Hn. by left.
Qed.

(** ** The pointer policy *)

(** C2 does not hold for aggregates: a required payload field without
    default that holds an object or a collection is [optional]. *)
Lemma pointerPolicy_aggregate_payload :
  pointerPolicy true false aggregate payloadField ≠ value.
Proof. discriminate. Qed.

(** C2, amended: for a field of primitive kind, a required payload field
    without default is a value and a payload field that is neither required
    nor has a default is optional; a result field is optional exactly when it
    is not required or has a default; a response header that is not required
    and has a default is a value. A body field is optional whatever its kind,
    and so is an aggregate in every context. *)
Theorem pointerPolicy_rules (required hasDefault : bool) (kind : FieldKind)
    (ctx : FieldContext) :
  pointerPolicy true false primitive payloadField = value
  ∧ pointerPolicy false false primitive payloadField = optional
  ∧ pointerPolicy required hasDefault primitive resultField
    = (if negb required || hasDefault then optional else value)
  ∧ pointerPolicy true true primitive resultField = optional
  ∧ pointerPolicy required hasDefault kind bodyField = optional
  ∧ pointerPolicy false true primitive responseHeaderField = value
  ∧ pointerPolicy required hasDefault aggregate ctx = optional.
Proof. repeat split; by destruct kind. Qed.

(** ** The sample designs *)

(** C4 on the shop service: its response body declaration is section 1, the
    constructor of its request body is section 5. *)
Lemma typeDecl_precedes_dependents_witness :
  let file := (clientType Sample.env "goa.design/example" Sample.shopSvc ∅).1 in
  let d := sectionOf "client-response-body" typeDeclT
             (BodyTypeData Sample.showResponse) in
  let c := sectionOf "client-body-init" clientBodyInitT
             (InitSectionData (Sample.init "NewShowRequestBody" "ShowRequestBody")) in
  (SectionTemplates file !! 1 = Some d
   ∧ SectionTemplates file !! 5 = Some c
   ∧ isTypeDecl d = true
   ∧ isDependent c = true)
  ∧ 1 < 5.
Proof.
  intros file d c.
  assert (H1 : SectionTemplates file !! 1 = Some d) by (vm_compute; reflexivity).
  assert (H2 : SectionTemplates file !! 5 = Some c) by (vm_compute; reflexivity).
  assert (H3 : isTypeDecl d = true) by reflexivity.
  assert (H4 : isDependent c = true) by reflexivity.
  split; [by repeat split|].
  exact (typeDecl_precedes_dependents Sample.env "goa.design/example"
           Sample.shopSvc ∅ 1 5 d c H1 H2 H3 H4).
Defined.

(** C5 as stated fails on the shop service: its expanded type has no
    validation code and still gets a validator section. *)
Lemma expanded_validator_without_validation :
  Validate Sample.itemExpanded = EmptyString
  ∧ sectionOf "client-validate-expanded" validateExpandedTypeT
      (ExpandedData Sample.itemExpanded)
    ∈ SectionTemplates
        (clientType Sample.env "goa.design/example" Sample.shopSvc ∅).1
  ∧ List.filter isValidator
      (SectionTemplates
         (clientType Sample.env "goa.design/example" Sample.shopSvc ∅).1)
    ≠ validatorPhase_spec Sample.env Sample.shopSvc.
Proof.
  split; [reflexivity|]. split.
  - apply list_elem_of_lookup. exists 13. vm_compute. reflexivity.
  - intros H. apply (f_equal length) in H. vm_compute in H. discriminate.
Qed.



(** C8 on two services named [shop] with different endpoints, generated for
    different packages with different registries. *)
Lemma clientType_path_witness :
  ServiceName Sample.shopSvc = ServiceName Sample.shopSvc'
  ∧ Path (clientType Sample.env "goa.design/example" Sample.shopSvc ∅).1
    = "gen/http/shop/client/types.go"
  ∧ Path (clientType Sample.env "goa.design/example" Sample.shopSvc ∅).1
    = Path (clientType Sample.env "goa.design/other" Sample.shopSvc'
              {["ItemRequestBody"]}).1.
Proof.
  split; [reflexivity|].
  exact (clientType_path Sample.env "goa.design/example" "goa.design/other"
           Sample.shopSvc Sample.shopSvc' ∅ {["ItemRequestBody"]} eq_refl).
Defined.


(** The sections of the file of the shop service, by name. The request body
    has no definition text: the file has no [client-request-body] section,
    and still a [client-body-init] section and three validators. *)
Example shop_section_names :
  Name <$> SectionTemplates
             (clientType Sample.env "goa.design/example" Sample.shopSvc ∅).1
  = [ "source-header"; "client-response-body"; "client-error-body";
      "client-body-attributes"; "expanded-type"; "client-body-init";
      "client-result-init"; "client-error-result-init";
      "expanded-type-convert"; "transform-helper"; "client-validate";
      "client-validate"; "client-validate"; "client-validate-expanded" ].
Proof. reflexivity. Qed.

(** The file of a service without endpoints, expanded types and helpers
    holds the header section alone. *)
Example empty_service_sections :
  SectionTemplates
    (clientType Sample.env "goa.design/example" Sample.emptySvc ∅).1
  = [ Header "empty HTTP client types" "client"
        [ {| ImportPath := "unicode/utf8"; ImportName := EmptyString |};
          {| ImportPath := "goa.design/example/empty"; ImportName := "empty" |};
          {| ImportPath := "goa.design/goa"; ImportName := "goa" |} ] ].
Proof. reflexivity. Qed.

(** The files of the sample design, by path: one per service, in order. *)
Example sample_paths :
  (λ f : option File, Path <$> f)
    <$> ClientTypeFiles Sample.env "goa.design/example" Sample.root
  = [ Some "gen/http/dup/client/types.go";
      Some "gen/http/shop/client/types.go";
      Some "gen/http/empty/client/types.go" ].
Proof. reflexivity. Qed.

(** The two conversion functions of the expanded type of the shop service. *)
Example shop_convert_funcs :
  (λ c, (Receiver c, FuncName c, ReturnType c))
    <$> convertFuncs
          (clientType Sample.env "goa.design/example" Sample.shopSvc ∅).1
  = [ ("*ItemExpanded", "ToItemDefault", "*shop.Item");
      ("*ItemExpanded", "ToItemTiny", "*shop.Item") ].
Proof. reflexivity. Qed.

(** * Further properties of the planner *)

Lemma omap_none {A B} (g : A → option B) (l : list A) :
  Forall (λ x, g x = None) l → omap g l = [].
Proof. induction 1 as [|x l Hx _ IH]; simpl; [done|]. by rewrite Hx. Qed.

Lemma omap_fmap_Some {A B C} (g : B → option C) (f : A → B) (h : A → C)
    (l : list A) :
  (∀ x, g (f x) = Some (h x)) → omap g (f <$> l) = h <$> l.
Proof.
  intros H. induction l as [|x l IH]; simpl; [done|].
  rewrite H. f_equal. apply IH.
Qed.

Section PlannerInvariants.

Variable E : Env.

(** X1: every section of a file carries the kind of data that its template
    reads: constructors an [InitData], view conversions and expanded-type
    validators an [ExpandedTypeData], declarations a body or an expanded
    type, body validators a body, helpers a helper, the header its title and
    imports. *)
Theorem sections_data_match_templates (genpkg : string) (svc : ServiceExpr)
    (seen : gset string) :
  Forall (λ s, dataMatches s = true)
    (SectionTemplates (clientType E genpkg svc seen).1).
Proof.
  rewrite clientType_sections. constructor; [done|].
  apply Forall_app_2.
  { unfold declarationPhase, typeDecls, expandedDecls. solve_Forall. }
  apply Forall_app_2; [by apply constructorPhase_Forall|].
  apply Forall_app_2; [by apply convertPhase_Forall|].
  apply Forall_app_2; [by apply helperPhase_Forall|].
  unfold validatorPhase, bodyValidators, expandedValidators. solve_Forall.
Qed.

(** The members of the declarations of the bodies of a list. *)
Lemma elem_of_typeDecls (name : string) (l : list TypeData) (s : SectionTemplate) :
  s ∈ typeDecls name l
  ↔ ∃ d, s = sectionOf name typeDeclT (BodyTypeData d)
         ∧ d ∈ l ∧ nonempty (Def d) = true.
Proof.
  unfold typeDecls. rewrite list_elem_of_fmap. split.
  - intros (d & -> & Hd). exists d. split; [done|].
    apply list_elem_of_In, filter_In in Hd as [Hd Hn].
    by rewrite list_elem_of_In.
  - intros (d & -> & Hd & Hn). exists d. split; [done|].
    by apply elem_of_filter_bool.
Qed.

(** X2: a body descriptor has a type-declaration section in the file exactly
    when the planner visits it (as a request, response or error body or as
    a body attribute type) and its definition text is not empty. *)
Theorem body_declared_iff_defined (genpkg : string) (svc : ServiceExpr)
    (seen : gset string) (d : TypeData) :
  (∃ s, s ∈ SectionTemplates (clientType E genpkg svc seen).1
        ∧ Source s = typeDeclT ∧ Data s = BodyTypeData d)
  ↔ d ∈ bodyTypes E svc ∧ nonempty (Def d) = true.
Proof.
  rewrite clientType_sections. unfold declarationPhase, bodyTypes. split.
  - intros (s & Hs & Hsrc & Hdata).
    apply elem_of_cons in Hs as [->|Hs]; [done|].
    rewrite !elem_of_app in Hs. rewrite !elem_of_app.
    destruct Hs as [[Hs|[Hs|[Hs|[Hs|Hs]]]]|Hs].
    1-4: apply elem_of_typeDecls in Hs as (d' & -> & Hd' & Hn);
         simpl in Hdata; injection Hdata as ->; tauto.
    + unfold expandedDecls in Hs.
      apply list_elem_of_fmap in Hs as (t & -> & _). done.
    + rewrite <- !elem_of_app in Hs.
      pose proof (later_phases_not_declarations E svc) as Hpost.
      rewrite Forall_forall in Hpost. apply Hpost in Hs.
      unfold isTypeDecl in Hs. by rewrite Hsrc in Hs.
  - intros [Hd Hn]. rewrite !elem_of_app in Hd.
    destruct Hd as [Hd|[Hd|[Hd|Hd]]].
    + exists (sectionOf "client-request-body" typeDeclT (BodyTypeData d)).
      split; [|done]. right. rewrite !elem_of_app. left. left.
      apply elem_of_typeDecls. eauto.
    + exists (sectionOf "client-response-body" typeDeclT (BodyTypeData d)).
      split; [|done]. right. rewrite !elem_of_app. left. right. left.
      apply elem_of_typeDecls. eauto.
    + exists (sectionOf "client-error-body" typeDeclT (BodyTypeData d)).
      split; [|done]. right. rewrite !elem_of_app. left. right. right. left.
      apply elem_of_typeDecls. eauto.
    + exists (sectionOf "client-body-attributes" typeDeclT (BodyTypeData d)).
      split; [|done]. right. rewrite !elem_of_app. left. do 3 right. left.
      apply elem_of_typeDecls. eauto.
Qed.

(** X3: the type names declared by a file are the names of the visited
    bodies that have a definition text, in the order of the visit, followed
    by the names of the expanded types; a name that occurs twice in that list
    is declared twice. *)
Theorem declaredNames_exact (genpkg : string) (svc : ServiceExpr)
    (seen : gset string) :
  declaredNames (clientType E genpkg svc seen).1
  = (VarName <$> List.filter (λ d, nonempty (Def d)) (bodyTypes E svc))
    ++ (ExpVarName <$> ExpandedTypes (HTTPServices_Get E (ServiceName svc))).
Proof.
  unfold declaredNames. rewrite clientType_sections.
  unfold declarationPhase, bodyTypes, typeDecls, expandedDecls.
  cbn [omap list_omap]. change (declaredName (fileHeader E genpkg svc)) with (@None string).
  cbn iota. rewrite !omap_app.
  rewrite !(omap_fmap_Some declaredName _ VarName) by done.
  rewrite (omap_fmap_Some declaredName _ ExpVarName) by done.
  rewrite (omap_none _ (constructorPhase E svc))
    by (by apply constructorPhase_Forall).
  rewrite (omap_none _ (convertPhase _)) by (by apply convertPhase_Forall).
  rewrite (omap_none _ (helperPhase _)) by (by apply helperPhase_Forall).
  rewrite (omap_none _ (validatorPhase E svc))
    by (by apply validatorPhase_Forall).
  rewrite !List.filter_app, !fmap_app, !app_nil_r, <- !app_assoc. done.
Qed.

(** X4: the expanded types that a file declares and the ones it converts
    are the same list, [rdata.ExpandedTypes], in the same order; the ones it
    validates are the list of the service, [rdata.Service.ExpandedTypes]. *)
Theorem expanded_sections_by_template (genpkg : string) (svc : ServiceExpr)
    (seen : gset string) :
  let rdata := HTTPServices_Get E (ServiceName svc) in
  let l := SectionTemplates (clientType E genpkg svc seen).1 in
  omap (expandedOf typeDeclT) l = ExpandedTypes rdata
  ∧ omap (expandedOf expandedTypeConvertT) l = ExpandedTypes rdata
  ∧ omap (expandedOf validateExpandedTypeT) l
    = ServiceExpandedTypes (Service rdata).
Proof.
  intros rdata l. unfold l. rewrite clientType_sections. fold rdata.
  assert (Hid : ∀ src (f : ExpandedTypeData → SectionTemplate) (k : list ExpandedTypeData),
            (∀ t, expandedOf src (f t) = Some t) → omap (expandedOf src) (f <$> k) = k).
  { intros src f k H. rewrite (omap_fmap_Some _ _ id) by done. apply list_fmap_id. }
  split; [|split].
  - cbn [omap list_omap]. change (expandedOf typeDeclT (fileHeader E genpkg svc)) with (@None ExpandedTypeData).
    cbn iota. unfold declarationPhase. rewrite !omap_app.
    rewrite !(omap_none _ (typeDecls _ _)) by (by apply typeDecls_Forall).
    unfold expandedDecls. rewrite Hid by done.
    rewrite (omap_none _ (constructorPhase E svc))
      by (by apply constructorPhase_Forall).
    rewrite (omap_none _ (convertPhase _)) by (by apply convertPhase_Forall).
    rewrite (omap_none _ (helperPhase _)) by (by apply helperPhase_Forall).
    rewrite (omap_none _ (validatorPhase E svc))
      by (by apply validatorPhase_Forall).
    by rewrite !app_nil_r.
  - cbn [omap list_omap]. change (expandedOf expandedTypeConvertT (fileHeader E genpkg svc)) with (@None ExpandedTypeData).
    cbn iota. rewrite !omap_app.
    rewrite (omap_none _ (declarationPhase E svc))
      by (by apply declarationPhase_Forall).
    rewrite (omap_none _ (constructorPhase E svc))
      by (by apply constructorPhase_Forall).
    unfold convertPhase. rewrite Hid by done.
    rewrite (omap_none _ (helperPhase _)) by (by apply helperPhase_Forall).
    rewrite (omap_none _ (validatorPhase E svc))
      by (by apply validatorPhase_Forall).
    by rewrite !app_nil_r.
  - cbn [omap list_omap]. change (expandedOf validateExpandedTypeT (fileHeader E genpkg svc)) with (@None ExpandedTypeData).
    cbn iota. rewrite !omap_app.
    rewrite (omap_none _ (declarationPhase E svc))
      by (by apply declarationPhase_Forall).
    rewrite (omap_none _ (constructorPhase E svc))
      by (by apply constructorPhase_Forall).
    rewrite (omap_none _ (convertPhase _)) by (by apply convertPhase_Forall).
    rewrite (omap_none _ (helperPhase _)) by (by apply helperPhase_Forall).
    unfold validatorPhase, bodyValidators, expandedValidators.
    rewrite omap_app, Hid by done.
    rewrite omap_none by solve_Forall.
    done.
Qed.

(** X5: a file has exactly one header section, the one [clientType] starts
    the section list with. *)
Theorem header_section_unique (genpkg : string) (svc : ServiceExpr)
    (seen : gset string) :
  List.filter (λ s, Template_eqb (Source s) headerT)
    (SectionTemplates (clientType E genpkg svc seen).1)
  = [fileHeader E genpkg svc].
Proof.
  rewrite clientType_sections. simpl. f_equal.
  rewrite !List.filter_app.
  rewrite (filter_none _ (declarationPhase E svc))
    by (by apply declarationPhase_Forall).
  rewrite (filter_none _ (constructorPhase E svc))
    by (by apply constructorPhase_Forall).
  rewrite (filter_none _ (convertPhase _)) by (by apply convertPhase_Forall).
  rewrite (filter_none _ (helperPhase _)) by (by apply helperPhase_Forall).
  rewrite (filter_none _ (validatorPhase E svc))
    by (by apply validatorPhase_Forall).
  done.
Qed.

(** The sections built from the service data alone. *)
Lemma fromServiceData_sections (genpkg : string) (svc : ServiceExpr)
    (seen : gset string) :
  let rdata := HTTPServices_Get E (ServiceName svc) in
  List.filter fromServiceData (SectionTemplates (clientType E genpkg svc seen).1)
  = typeDecls "client-body-attributes" (ClientBodyAttributeTypes rdata)
    ++ expandedDecls rdata ++ resultInits rdata ++ convertPhase rdata
    ++ helperPhase rdata ++ expandedValidators rdata.
Proof.
  intros rdata. rewrite clientType_sections. fold rdata.
  unfold declarationPhase, constructorPhase, validatorPhase. fold rdata.
  change (List.filter fromServiceData (fileHeader E genpkg svc :: ?l))
    with (List.filter fromServiceData l).
  rewrite !List.filter_app.
  rewrite (filter_none _ (typeDecls "client-request-body" _))
    by (by apply typeDecls_Forall).
  rewrite (filter_none _ (typeDecls "client-response-body" _))
    by (by apply typeDecls_Forall).
  rewrite (filter_none _ (typeDecls "client-error-body" _))
    by (by apply typeDecls_Forall).
  rewrite (filter_all _ (typeDecls "client-body-attributes" _))
    by (by apply typeDecls_Forall).
  rewrite (filter_all _ (expandedDecls _))
    by (unfold expandedDecls; solve_Forall).
  rewrite (filter_none _ (bodyInits _ _)) by (unfold bodyInits; solve_Forall).
  rewrite (filter_all _ (resultInits _))
    by (unfold resultInits, endpointResultInits; solve_Forall).
  rewrite (filter_all _ (convertPhase _)) by (unfold convertPhase; solve_Forall).
  rewrite (filter_all _ (helperPhase _)) by (unfold helperPhase; solve_Forall).
  rewrite (filter_none _ (bodyValidators _ _))
    by (unfold bodyValidators; solve_Forall).
  rewrite (filter_all _ (expandedValidators _))
    by (unfold expandedValidators; solve_Forall).
  simpl. by rewrite <- !app_assoc.
Qed.

(** X6: the body attribute declarations, the expanded type declarations,
    the result constructors, the view conversions, the helpers and the
    expanded-type validators of a file depend on the name of the service
    only: they are read from the service data, not through the endpoints of
    the design, and are the same for two services of the same name. *)
Theorem same_name_same_service_sections (genpkg1 genpkg2 : string)
    (svc1 svc2 : ServiceExpr) (seen1 seen2 : gset string) :
  ServiceName svc1 = ServiceName svc2 →
  List.filter fromServiceData
    (SectionTemplates (clientType E genpkg1 svc1 seen1).1)
  = List.filter fromServiceData
      (SectionTemplates (clientType E genpkg2 svc2 seen2).1).
Proof.
  intros Hname. rewrite !fromServiceData_sections. by rewrite Hname.
Qed.

(** X7: a section that carries an [InitData] is either a body constructor
    built from the [Init] of a request body, or a result constructor built
    from the [ResultInit] of a response or of an error of an endpoint of the
    service data; no constructor comes from anywhere else. *)
Theorem constructor_sections_origin (genpkg : string) (svc : ServiceExpr)
    (seen : gset string) (s : SectionTemplate) (i : InitData) :
  let rdata := HTTPServices_Get E (ServiceName svc) in
  s ∈ SectionTemplates (clientType E genpkg svc seen).1 →
  Data s = InitSectionData i →
  (Name s = "client-body-init"
   ∧ ∃ d, d ∈ requestBodies E svc ∧ Init d = Some i)
  ∨ (Name s = "client-result-init"
     ∧ ∃ adata resp, adata ∈ Endpoints rdata
         ∧ resp ∈ Responses (Result adata) ∧ ResultInit resp = Some i)
  ∨ (Name s = "client-error-result-init"
     ∧ ∃ adata herr, adata ∈ Endpoints rdata
         ∧ herr ∈ Errors adata ∧ ResultInit (Response herr) = Some i).
Proof.
  intros rdata. rewrite clientType_sections. fold rdata.
  intros Hs Hdata.
  assert (Hno : ∀ l, Forall (λ s, ∀ j, Data s ≠ InitSectionData j) l →
                     s ∈ l → False).
  { intros l Hl Hin. exact (proj1 (Forall_forall _ _) Hl s Hin i Hdata). }
  apply elem_of_cons in Hs as [->|Hs]; [done|].
  apply elem_of_app in Hs as [Hs|Hs].
  { exfalso. apply (Hno (declarationPhase E svc)); [|done].
    unfold declarationPhase, typeDecls, expandedDecls. solve_Forall; done. }
  apply elem_of_app in Hs as [Hs|Hs].
  - unfold constructorPhase in Hs. fold rdata in Hs.
    apply elem_of_app in Hs as [Hs|Hs].
    + left. unfold bodyInits in Hs.
      apply list_elem_of_fmap in Hs as (j & -> & Hj).
      simpl in Hdata. injection Hdata as ->. split; [done|].
      by apply list_elem_of_omap in Hj.
    + right. unfold resultInits in Hs.
      apply list_elem_of_bind in Hs as (adata & Hs & Ha).
      unfold endpointResultInits in Hs.
      apply elem_of_app in Hs as [Hs|Hs];
        apply list_elem_of_fmap in Hs as (j & -> & Hj);
        simpl in Hdata; injection Hdata as ->;
        apply list_elem_of_omap in Hj as (x & Hx & Hi).
      * left. split; [done|]. by exists adata, x.
      * right. split; [done|]. exists adata, x. simpl in Hi. done.
  - exfalso. apply elem_of_app in Hs as [Hs|Hs].
    { apply (Hno (convertPhase rdata)); [|done].
      by apply convertPhase_Forall. }
    apply elem_of_app in Hs as [Hs|Hs].
    { apply (Hno (helperPhase rdata)); [|done]. by apply helperPhase_Forall. }
    apply (Hno (validatorPhase E svc)); [|done].
    unfold validatorPhase, bodyValidators, expandedValidators.
    solve_Forall; done.
Qed.

(** X8: when the service has no endpoint, neither in the design nor in the
    service data, no body attribute type, no expanded type and no helper,
    the file holds the header section and nothing else. *)
Theorem empty_service_header_only (genpkg : string) (svc : ServiceExpr)
    (seen : gset string) :
  let rdata := HTTPServices_Get E (ServiceName svc) in
  HTTPEndpoints svc = [] →
  Endpoints rdata = [] →
  ClientBodyAttributeTypes rdata = [] →
  ExpandedTypes rdata = [] →
  Helpers (Service rdata) = [] →
  ServiceExpandedTypes (Service rdata) = [] →
  SectionTemplates (clientType E genpkg svc seen).1 = [fileHeader E genpkg svc].
Proof.
  intros rdata He Hd Ha Hx Hh Hs. rewrite clientType_sections.
  unfold declarationPhase, constructorPhase, convertPhase, helperPhase,
    validatorPhase, bodyValidators, bodyTypes, bodyInits, expandedDecls,
    resultInits, expandedValidators, requestBodies, responseBodies, errorBodies.
  fold rdata. by rewrite He, Hd, Ha, Hx, Hh, Hs.
Qed.

End PlannerInvariants.

(** * Further properties of the loop of [ClientTypeFiles] *)

Section LoopInvariants.

Variable E : Env.

Lemma loopIterFrom_invariant (genpkg : string) (root : RootExpr) (k : nat) :
  ∀ st st',
    loop_seen st = ∅ →
    loop_i st ≤ length (HTTPServices root) →
    length (loop_fw st) = length (HTTPServices root) →
    loopIterFrom E k genpkg root st = Some st' →
    loop_i st' = loop_i st + k
    ∧ loop_i st + k ≤ length (HTTPServices root)
    ∧ loop_seen st' = ∅
    ∧ length (loop_fw st') = length (HTTPServices root)
    ∧ take (loop_i st + k) (loop_fw st')
      = take (loop_i st) (loop_fw st)
        ++ ((λ svc, Some (clientType E genpkg svc ∅).1)
              <$> take k (drop (loop_i st) (HTTPServices root)))
    ∧ drop (loop_i st + k) (loop_fw st') = drop (loop_i st + k) (loop_fw st).
Proof.
  induction k as [|k IH]; intros st st' Hseen Hbound Hlen Hrun.
  - simpl in Hrun. injection Hrun as <-.
    rewrite Nat.add_0_r, take_0, fmap_nil, app_nil_r.
    repeat split; done.
  - simpl in Hrun. unfold loopStep in Hrun.
    destruct (HTTPServices root !! loop_i st) as [svc|] eqn:Hsvc; [|done].
    rewrite clientType_seen in Hrun.
    apply lookup_lt_Some in Hsvc as Hlt.
    apply IH in Hrun; cbn [loop_i loop_fw loop_seen] in *;
      rewrite ?length_insert; [|done || lia ..].
    destruct Hrun as (Hi & Hle & Hs & Hl & Htake & Hdrop).
    replace (loop_i st + S k) with (S (loop_i st) + k) by lia.
    repeat split; try done.
    + rewrite Htake.
      rewrite (take_S_r _ _ (Some (clientType E genpkg svc ∅).1))
        by (apply list_lookup_insert_eq; lia).
      rewrite take_insert_ge by lia.
      rewrite (drop_S _ _ _ Hsvc). cbn [take]. rewrite fmap_cons.
      by rewrite <- app_assoc.
    + rewrite Hdrop. apply drop_insert_lt. lia.
Qed.

(** What holds of the state reached after [k] iterations. *)
Lemma loopIter_invariant (genpkg : string) (root : RootExpr) (k : nat)
    (st : LoopState) :
  loopIter E k genpkg root = Some st →
  loop_i st = k
  ∧ k ≤ length (HTTPServices root)
  ∧ loop_seen st = ∅
  ∧ loop_fw st
    = ((λ svc, Some (clientType E genpkg svc ∅).1) <$> take k (HTTPServices root))
      ++ replicate (length (HTTPServices root) - k) None.
Proof.
  unfold loopIter. intros Hrun.
  apply loopIterFrom_invariant in Hrun; cbn [loopInit loop_i loop_fw loop_seen];
    rewrite ?length_replicate; [|done || lia ..].
  cbn [loopInit loop_i loop_fw loop_seen] in Hrun.
  destruct Hrun as (Hi & Hle & Hs & Hl & Htake & Hdrop).
  simpl in Hi, Hle, Htake, Hdrop. rewrite drop_0 in Htake.
  repeat split; try done.
  rewrite <- (take_drop k (loop_fw st)), Htake, Hdrop.
  by rewrite drop_replicate.
Qed.

Lemma loopIterFrom_is_Some (genpkg : string) (root : RootExpr) (k : nat) :
  ∀ st, loop_i st + k ≤ length (HTTPServices root) →
        is_Some (loopIterFrom E k genpkg root st).
Proof.
  induction k as [|k IH]; intros st Hle; simpl; [done|].
  unfold loopStep.
  destruct (lookup_lt_is_Some_2 (HTTPServices root) (loop_i st)) as [svc ->];
    [lia|].
  rewrite clientType_seen. apply IH. simpl. lia.
Qed.

Lemma loopIterFrom_None (genpkg : string) (root : RootExpr) (k : nat) :
  ∀ st, loop_i st ≤ length (HTTPServices root) →
        length (HTTPServices root) < loop_i st + k →
        loopIterFrom E k genpkg root st = None.
Proof.
  induction k as [|k IH]; intros st Hle Hlt; [lia|]. simpl.
  unfold loopStep.
  destruct (HTTPServices root !! loop_i st) as [svc|] eqn:Hsvc; [|done].
  apply lookup_lt_Some in Hsvc. rewrite clientType_seen.
  apply IH; simpl; lia.
Qed.

(** X9: the loop of [ClientTypeFiles] runs its body once per service and no
    more; after [k] iterations the index is [k], the first [k] entries of
    the slice hold the files of the first [k] services, the other entries
    are still nil, and the registry is still empty. *)
Theorem loop_state_after (genpkg : string) (root : RootExpr) (k : nat) :
  loopIter E k genpkg root
  = if decide (k ≤ length (HTTPServices root))
    then Some {| loop_i := k;
                 loop_fw :=
                   ((λ svc, Some (clientType E genpkg svc ∅).1)
                      <$> take k (HTTPServices root))
                   ++ replicate (length (HTTPServices root) - k) None;
                 loop_seen := ∅ |}
    else None.
Proof.
  destruct (decide (k ≤ length (HTTPServices root))) as [Hle|Hgt].
  - destruct (loopIterFrom_is_Some genpkg root k (loopInit root)) as [st Hst];
      [simpl; lia|].
    unfold loopIter. rewrite Hst. f_equal.
    apply loopIter_invariant in Hst as (Hi & _ & Hs & Hfw).
    destruct st as [i fw sn]. simpl in *. by subst.
  - apply loopIterFrom_None; simpl; lia.
Qed.

(** X10: generating the files of a design whose services are [l1] followed
    by [l2] gives the files of [l1] followed by the files of [l2], and a
    design without services gives no file: nothing passes from one service
    to the next. *)
Theorem ClientTypeFiles_app (genpkg : string) (l1 l2 : list ServiceExpr) :
  ClientTypeFiles E genpkg {| HTTPServices := l1 ++ l2 |}
  = ClientTypeFiles E genpkg {| HTTPServices := l1 |}
    ++ ClientTypeFiles E genpkg {| HTTPServices := l2 |}
  ∧ ClientTypeFiles E genpkg {| HTTPServices := [] |} = [].
Proof.
  unfold ClientTypeFiles. rewrite !ClientTypeFiles_run. cbn [default HTTPServices].
  split; [apply fmap_app|done].
Qed.

End LoopInvariants.

(** * Properties of the constructor templates *)

Section TemplateProofs.

Variable comment : string → string.

Lemma renderParams_names (args1 args2 : list InitArgData) :
  (λ a, (ArgName a, TypeRef a)) <$> args1
  = (λ a, (ArgName a, TypeRef a)) <$> args2 →
  renderParams args1 = renderParams args2.
Proof.
  intros H. unfold renderParams.
  change (λ a, ArgName a +:+ " " +:+ TypeRef a +:+ ", ")
    with ((λ p : string * string, p.1 +:+ " " +:+ p.2 +:+ ", ")
          ∘ (λ a, (ArgName a, TypeRef a))).
  by rewrite !list_fmap_compose, H.
Qed.

Lemma renderSignature_names (i j : InitData) :
  Description i = Description j →
  InitName i = InitName j →
  ReturnTypeRef i = ReturnTypeRef j →
  (λ a, (ArgName a, TypeRef a)) <$> ClientArgs i
  = (λ a, (ArgName a, TypeRef a)) <$> ClientArgs j →
  renderSignature comment i = renderSignature comment j.
Proof.
  intros Hd Hn Hr Ha. unfold renderSignature.
  by rewrite Hd, Hn, Hr, (renderParams_names _ _ Ha).
Qed.

(** X11: the text of a body constructor depends on the description, the
    name, the return type reference and the client code of the constructor
    and on the names and type references of its arguments, and on nothing
    else: field bindings, pointer marks, the name of the return type and the
    struct flag are not read by [clientBodyInitT]. *)
Theorem renderClientBodyInit_reads (i j : InitData) :
  Description i = Description j →
  InitName i = InitName j →
  ReturnTypeRef i = ReturnTypeRef j →
  ClientCode i = ClientCode j →
  (λ a, (ArgName a, TypeRef a)) <$> ClientArgs i
  = (λ a, (ArgName a, TypeRef a)) <$> ClientArgs j →
  renderClientBodyInit comment i = renderClientBodyInit comment j.
Proof.
  intros Hd Hn Hr Hc Ha. unfold renderClientBodyInit.
  by rewrite (renderSignature_names i j), Hc.
Qed.

(** X12: for a result constructor whose return value is not a struct, the
    text of [clientTypeInitT] does not depend on the field bindings and
    pointer marks of the arguments: only their names and type references
    are printed. *)
Theorem renderClientTypeInit_not_struct (i j : InitData) :
  ReturnIsStruct i = false →
  ReturnIsStruct j = false →
  Description i = Description j →
  InitName i = InitName j →
  ReturnTypeRef i = ReturnTypeRef j →
  ReturnTypeName i = ReturnTypeName j →
  ReturnTypeAttribute i = ReturnTypeAttribute j →
  ClientCode i = ClientCode j →
  (λ a, (ArgName a, TypeRef a)) <$> ClientArgs i
  = (λ a, (ArgName a, TypeRef a)) <$> ClientArgs j →
  renderClientTypeInit comment i = renderClientTypeInit comment j.
Proof.
  intros Hsi Hsj Hd Hn Hr Htn Hta Hc Ha. unfold renderClientTypeInit.
  by rewrite (renderSignature_names i j), Hsi, Hsj, Htn, Hta, Hc.
Qed.

(** The lines that the two [range]s of [clientTypeInitT] print are those of
    the arguments bound to a field. *)
Lemma range_lines_boundArgs (args : list InitArgData) :
  joinAll (renderAssign <$> args)
  = joinAll ((λ a, newline +:+ tab +:+ tab +:+ tab
                   +:+ "v." +:+ FieldName a +:+ " = " +:+ ampersand a +:+ ArgName a)
             <$> boundArgs args)
  ∧ joinAll (renderField <$> args)
    = joinAll ((λ a, newline +:+ tab +:+ tab +:+ tab +:+ tab
                     +:+ FieldName a +:+ ": " +:+ ampersand a +:+ ArgName a +:+ ",")
               <$> boundArgs args).
Proof.
  unfold boundArgs.
  split; (induction args as [|a args IH]; [done|]);
    rewrite fmap_cons; cbn [joinAll foldr List.filter];
    fold (joinAll (renderAssign <$> args)); fold (joinAll (renderField <$> args));
    rewrite IH; unfold renderAssign, renderField;
    destruct (nonempty (FieldName a)); done.
Qed.

(** X13: the text of a result constructor reads the field bindings and the
    pointer marks of the arguments through the arguments bound to a field
    only: two constructors that agree on their other fields, on the names and
    type references of all their arguments and on the list of their bound
    arguments have the same text. The pointer mark of an argument that is
    not bound to a field is never printed. *)
Theorem renderClientTypeInit_bound_args (i j : InitData) :
  Description i = Description j →
  InitName i = InitName j →
  ReturnTypeRef i = ReturnTypeRef j →
  ReturnTypeName i = ReturnTypeName j →
  ReturnTypeAttribute i = ReturnTypeAttribute j →
  ReturnIsStruct i = ReturnIsStruct j →
  ClientCode i = ClientCode j →
  (λ a, (ArgName a, TypeRef a)) <$> ClientArgs i
  = (λ a, (ArgName a, TypeRef a)) <$> ClientArgs j →
  boundArgs (ClientArgs i) = boundArgs (ClientArgs j) →
  renderClientTypeInit comment i = renderClientTypeInit comment j.
Proof.
  intros Hd Hn Hr Htn Hta Hs Hc Ha Hb. unfold renderClientTypeInit.
  rewrite (renderSignature_names i j) by done.
  destruct (range_lines_boundArgs (ClientArgs i)) as [-> ->].
  destruct (range_lines_boundArgs (ClientArgs j)) as [-> ->].
  by rewrite Hb, Htn, Hta, Hs, Hc.
Qed.

End TemplateProofs.

(** * The further properties on the sample designs *)

(** X2 on the shop service: the response body of its endpoint is visited
    and has a definition text. *)
Lemma body_declared_iff_defined_witness :
  (Sample.showResponse ∈ bodyTypes Sample.env Sample.shopSvc
   ∧ nonempty (Def Sample.showResponse) = true)
  ∧ ∃ s, s ∈ SectionTemplates
               (clientType Sample.env "goa.design/example" Sample.shopSvc ∅).1
         ∧ Source s = typeDeclT ∧ Data s = BodyTypeData Sample.showResponse.
Proof.
  assert (H : Sample.showResponse ∈ bodyTypes Sample.env Sample.shopSvc
              ∧ nonempty (Def Sample.showResponse) = true).
  { split; [|reflexivity]. vm_compute. right. left. }
  split; [exact H|].
  exact (proj2 (body_declared_iff_defined Sample.env "goa.design/example"
                  Sample.shopSvc ∅ Sample.showResponse) H).
Defined.

(** X6 on two services named [shop], one with an endpoint and one without. *)
Lemma same_name_same_service_sections_witness :
  ServiceName Sample.shopSvc = ServiceName Sample.shopSvc'
  ∧ List.filter fromServiceData
      (SectionTemplates
         (clientType Sample.env "goa.design/example" Sample.shopSvc ∅).1)
    = List.filter fromServiceData
        (SectionTemplates
           (clientType Sample.env "goa.design/other" Sample.shopSvc'
              {["ItemRequestBody"]}).1).
Proof.
  split; [reflexivity|].
  exact (same_name_same_service_sections Sample.env "goa.design/example"
           "goa.design/other" Sample.shopSvc Sample.shopSvc' ∅
           {["ItemRequestBody"]} eq_refl).
Defined.

(** X7 on the shop service: its body constructor comes from the request
    body of its endpoint. *)
Lemma constructor_sections_origin_witness :
  let i := Sample.init "NewShowRequestBody" "ShowRequestBody" in
  let s := sectionOf "client-body-init" clientBodyInitT (InitSectionData i) in
  (s ∈ SectionTemplates
         (clientType Sample.env "goa.design/example" Sample.shopSvc ∅).1
   ∧ Data s = InitSectionData i)
  ∧ ((Name s = "client-body-init"
      ∧ ∃ d, d ∈ requestBodies Sample.env Sample.shopSvc ∧ Init d = Some i)
     ∨ (Name s = "client-result-init"
        ∧ ∃ adata resp,
            adata ∈ Endpoints (HTTPServices_Get Sample.env (ServiceName Sample.shopSvc))
            ∧ resp ∈ Responses (Result adata) ∧ ResultInit resp = Some i)
     ∨ (Name s = "client-error-result-init"
        ∧ ∃ adata herr,
            adata ∈ Endpoints (HTTPServices_Get Sample.env (ServiceName Sample.shopSvc))
            ∧ herr ∈ Errors adata ∧ ResultInit (Response herr) = Some i)).
Proof.
  intros i s.
  assert (H : s ∈ SectionTemplates
                    (clientType Sample.env "goa.design/example" Sample.shopSvc ∅).1).
  { apply list_elem_of_lookup. exists 5. vm_compute. reflexivity. }
  split; [by split|].
  exact (constructor_sections_origin Sample.env "goa.design/example"
           Sample.shopSvc ∅ s i H eq_refl).
Defined.

(** X8 on the empty service. *)
Lemma empty_service_header_only_witness :
  let rdata := HTTPServices_Get Sample.env (ServiceName Sample.emptySvc) in
  (HTTPEndpoints Sample.emptySvc = []
   ∧ Endpoints rdata = []
   ∧ ClientBodyAttributeTypes rdata = []
   ∧ ExpandedTypes rdata = []
   ∧ Helpers (Service rdata) = []
   ∧ ServiceExpandedTypes (Service rdata) = [])
  ∧ SectionTemplates
      (clientType Sample.env "goa.design/example" Sample.emptySvc ∅).1
    = [fileHeader Sample.env "goa.design/example" Sample.emptySvc].
Proof.
  intros rdata. split; [by repeat split|].
  exact (empty_service_header_only Sample.env "goa.design/example"
           Sample.emptySvc ∅ eq_refl eq_refl eq_refl eq_refl eq_refl eq_refl).
Defined.

(** X11 on two constructors that differ in their field bindings, their
    return type name and their struct flag. *)
Lemma renderClientBodyInit_reads_witness :
  (Description SampleText.unbound = Description SampleText.flagged
   ∧ InitName SampleText.unbound = InitName SampleText.flagged
   ∧ ReturnTypeRef SampleText.unbound = ReturnTypeRef SampleText.flagged
   ∧ ClientCode SampleText.unbound = ClientCode SampleText.flagged
   ∧ (λ a, (ArgName a, TypeRef a)) <$> ClientArgs SampleText.unbound
     = (λ a, (ArgName a, TypeRef a)) <$> ClientArgs SampleText.flagged)
  ∧ renderClientBodyInit SampleText.comment SampleText.unbound
    = renderClientBodyInit SampleText.comment SampleText.flagged.
Proof.
  split; [by repeat split|].
  exact (renderClientBodyInit_reads SampleText.comment SampleText.unbound
           SampleText.flagged eq_refl eq_refl eq_refl eq_refl eq_refl).
Defined.

(** X12 on two constructors that return a string and differ in their field
    bindings. *)
Lemma renderClientTypeInit_not_struct_witness :
  (ReturnIsStruct SampleText.plain = false
   ∧ ReturnIsStruct SampleText.unbound = false
   ∧ Description SampleText.plain = Description SampleText.unbound
   ∧ InitName SampleText.plain = InitName SampleText.unbound
   ∧ ReturnTypeRef SampleText.plain = ReturnTypeRef SampleText.unbound
   ∧ ReturnTypeName SampleText.plain = ReturnTypeName SampleText.unbound
   ∧ ReturnTypeAttribute SampleText.plain = ReturnTypeAttribute SampleText.unbound
   ∧ ClientCode SampleText.plain = ClientCode SampleText.unbound
   ∧ (λ a, (ArgName a, TypeRef a)) <$> ClientArgs SampleText.plain
     = (λ a, (ArgName a, TypeRef a)) <$> ClientArgs SampleText.unbound)
  ∧ renderClientTypeInit SampleText.comment SampleText.plain
    = renderClientTypeInit SampleText.comment SampleText.unbound.
Proof.
  split; [by repeat split|].
  exact (renderClientTypeInit_not_struct SampleText.comment SampleText.plain
           SampleText.unbound eq_refl eq_refl eq_refl eq_refl eq_refl eq_refl
           eq_refl eq_refl eq_refl).
Defined.

(** The text of the flagged sample constructor: the wrapper [res], one
    assignment for the bound argument, and the return of [res] right before
    the closing brace. *)
Example flagged_constructor_text :
  renderClientTypeInit SampleText.comment SampleText.flagged
  = "// NewShowEtagOK builds the result of show" +:+ newline
    +:+ "func NewShowEtagOK(body string, etag string, ) string {" +:+ newline
    +:+ tab +:+ tab +:+ "v := body" +:+ newline
    +:+ tab +:+ tab +:+ "res := &Etag{" +:+ newline
    +:+ tab +:+ tab +:+ tab +:+ "Value: v," +:+ newline
    +:+ tab +:+ tab +:+ "}" +:+ newline
    +:+ tab +:+ tab +:+ tab +:+ "v.ETag = &etag" +:+ newline
    +:+ tab +:+ tab +:+ "return res}" +:+ newline.
Proof. reflexivity. Qed.

(** * The constructors of bodies without declaration *)

(** C6 as stated fails on the bare service: the response body of its
    endpoint has no definition text, so its type declaration is omitted; its
    validator is emitted, and its [Init] is not: the file holds the header
    and the validator, and no section carries the constructor. *)
Lemma undeclared_response_body_init_not_emitted :
  SampleBare.listResponse ∈ bodyTypes SampleBare.env SampleBare.bareSvc
  ∧ nonempty (Def SampleBare.listResponse) = false
  ∧ Init SampleBare.listResponse
    = Some (Sample.init "NewListResponseBody" "ListResponseBody")
  ∧ SectionTemplates
      (clientType SampleBare.env "goa.design/example" SampleBare.bareSvc ∅).1
    = [ fileHeader SampleBare.env "goa.design/example" SampleBare.bareSvc;
        sectionOf "client-validate" validateT
          (BodyTypeData SampleBare.listResponse) ]
  ∧ Forall
      (λ s, Data s
            ≠ InitSectionData (Sample.init "NewListResponseBody" "ListResponseBody"))
      (SectionTemplates
         (clientType SampleBare.env "goa.design/example" SampleBare.bareSvc ∅).1).
Proof.
  assert (Hsec : SectionTemplates
                   (clientType SampleBare.env "goa.design/example"
                      SampleBare.bareSvc ∅).1
                 = [ fileHeader SampleBare.env "goa.design/example"
                       SampleBare.bareSvc;
                     sectionOf "client-validate" validateT
                       (BodyTypeData SampleBare.listResponse) ])
    by reflexivity.
  split; [vm_compute; left|]. split; [reflexivity|]. split; [reflexivity|].
  split; [exact Hsec|]. rewrite Hsec.
  repeat (apply Forall_cons_2 || apply Forall_nil_2); vm_compute; congruence.
Qed.

(** C6 on the shop service: the request body of its endpoint has no
    definition text, hence no type-declaration section, and its constructor
    and its validator are both sections of the file. *)
Lemma constructors_and_validators_regardless_of_declaration_witness :
  let file := (clientType Sample.env "goa.design/example" Sample.shopSvc ∅).1 in
  (Sample.showRequest ∈ requestBodies Sample.env Sample.shopSvc
   ∧ Sample.showRequest ∈ bodyTypes Sample.env Sample.shopSvc
   ∧ nonempty (Def Sample.showRequest) = false
   ∧ Init Sample.showRequest
     = Some (Sample.init "NewShowRequestBody" "ShowRequestBody")
   ∧ nonempty (ValidateDef Sample.showRequest) = true)
  ∧ sectionOf "client-body-init" clientBodyInitT
      (InitSectionData (Sample.init "NewShowRequestBody" "ShowRequestBody"))
    ∈ SectionTemplates file
  ∧ sectionOf "client-validate" validateT (BodyTypeData Sample.showRequest)
    ∈ SectionTemplates file.
Proof.
  intros file.
  assert (H1 : Sample.showRequest ∈ requestBodies Sample.env Sample.shopSvc)
    by (vm_compute; left).
  assert (H2 : Sample.showRequest ∈ bodyTypes Sample.env Sample.shopSvc)
    by (vm_compute; left).
  destruct (constructors_and_validators_regardless_of_declaration Sample.env
              "goa.design/example" Sample.shopSvc ∅)
    as (_ & _ & _ & Hinit & Hval).
  split; [by repeat split|]. split.
  - apply (Hinit Sample.showRequest); [exact H1|reflexivity].
  - apply (Hval Sample.showRequest); [exact H2|reflexivity].
Defined.

(** X13 on two struct constructors that differ in the pointer mark of their
    unbound argument. *)
Lemma renderClientTypeInit_bound_args_witness :
  (Description (SampleBare.structInit false) = Description (SampleBare.structInit true)
   ∧ InitName (SampleBare.structInit false) = InitName (SampleBare.structInit true)
   ∧ ReturnTypeRef (SampleBare.structInit false)
     = ReturnTypeRef (SampleBare.structInit true)
   ∧ ReturnTypeName (SampleBare.structInit false)
     = ReturnTypeName (SampleBare.structInit true)
   ∧ ReturnTypeAttribute (SampleBare.structInit false)
     = ReturnTypeAttribute (SampleBare.structInit true)
   ∧ ReturnIsStruct (SampleBare.structInit false)
     = ReturnIsStruct (SampleBare.structInit true)
   ∧ ClientCode (SampleBare.structInit false)
     = ClientCode (SampleBare.structInit true)
   ∧ (λ a, (ArgName a, TypeRef a)) <$> ClientArgs (SampleBare.structInit false)
     = (λ a, (ArgName a, TypeRef a)) <$> ClientArgs (SampleBare.structInit true)
   ∧ boundArgs (ClientArgs (SampleBare.structInit false))
     = boundArgs (ClientArgs (SampleBare.structInit true)))
  ∧ renderClientTypeInit SampleText.comment (SampleBare.structInit false)
    = renderClientTypeInit SampleText.comment (SampleBare.structInit true).
Proof.
  split; [by repeat split|].
  exact (renderClientTypeInit_bound_args SampleText.comment
           (SampleBare.structInit false) (SampleBare.structInit true)
           eq_refl eq_refl eq_refl eq_refl eq_refl eq_refl eq_refl eq_refl
           eq_refl).
Defined.
